(** * Streamflow statistics and metrics (program_10.py)

    A shallow embedding of the metric functions ([CalcTqmean],
    [CalcRBindex], [Calc7Q], [CalcExceed3TimesMedian]), the data cleaning
    steps ([ReadData], [ClipData]), the aggregation ([GetAnnualStatistics],
    [GetAnnualAverages], [GetMonthlyStatistics], [GetMonthlyAverages]) and
    the script body of [program_10.py], and the properties of its
    specification and of the code itself.  Reading the station files,
    printing and writing the output files are left out.

    Numeric model.  A pandas [float64] cell is modelled by [float]: an exact
    rational, one of the two infinities, or NaN (the missing marker).  The
    arithmetic is the IEEE one on these four classes of values, except that
    finite results are exact: binary64 rounding, overflow and the sign of
    zero are not followed.  The theorems about the code are stated so that
    they do not rest on exactness: they speak of counts, missing values,
    the order of the cells and which branch is taken.  [Binary64] gives
    [CalcTqmean] and [CalcRBindex] on the machine's binary64 numbers, to
    evaluate the code where rounding or overflow decides the result.

    Index.  The label slices of the two loops and the resampling are
    embedded for a table in ascending date order, as a station file is; on
    an index out of date order [DataDF[startDate:endDate]] raises
    [KeyError], which is not followed: the properties of the loops assume
    [ascending].

    Date model.  A [Timestamp] of the daily index is the number of days
    since 1970-01-01 in the proleptic Gregorian calendar; [pd.DateOffset(days=n)]
    adds [n] to it. *)

From Stdlib Require Import String.
From Stdlib Require Import ZArith QArith Qabs Lqa Lia List Bool.
From Stdlib Require PrimFloat.
Import ListNotations.

Local Open Scope Z_scope.

(* ================================================================== *)
(** ** float64 cells *)

Module Float.

Inductive float : Type :=
| NaN
| PInf
| NInf
| Fin (q : Q).

Definition isna (a : float) : bool :=
  match a with NaN => true | _ => false end.

Definition notna (a : float) : bool := negb (isna a).

Definition Qltb (x y : Q) : bool := negb (Qle_bool y x).

(** Equality of cells up to the representation of the rational. *)
Definition feq (a b : float) : Prop :=
  match a, b with
  | NaN, NaN | PInf, PInf | NInf, NInf => True
  | Fin x, Fin y => (x == y)%Q
  | _, _ => False
  end.

Definition fneg (a : float) : float :=
  match a with
  | NaN => NaN
  | PInf => NInf
  | NInf => PInf
  | Fin x => Fin (- x)%Q
  end.

Definition fadd (a b : float) : float :=
  match a, b with
  | NaN, _ | _, NaN => NaN
  | Fin x, Fin y => Fin (x + y)%Q
  | PInf, NInf | NInf, PInf => NaN
  | PInf, _ | _, PInf => PInf
  | NInf, _ | _, NInf => NInf
  end.

Definition fsub (a b : float) : float := fadd a (fneg b).

Definition fabs (a : float) : float :=
  match a with
  | NaN => NaN
  | PInf | NInf => PInf
  | Fin x => Fin (Qabs x)
  end.

(** Sign of a finite value used when it meets an infinity or a zero:
    [Gt] positive, [Lt] negative, [Eq] zero. *)
Definition Qsign (x : Q) : comparison := Qcompare x 0.

Definition fmul (a b : float) : float :=
  match a, b with
  | NaN, _ | _, NaN => NaN
  | Fin x, Fin y => Fin (x * y)%Q
  | PInf, PInf | NInf, NInf => PInf
  | PInf, NInf | NInf, PInf => NInf
  | PInf, Fin x | Fin x, PInf =>
      match Qsign x with Gt => PInf | Lt => NInf | Eq => NaN end
  | NInf, Fin x | Fin x, NInf =>
      match Qsign x with Gt => NInf | Lt => PInf | Eq => NaN end
  end.

(** numpy true division: a finite nonzero value over zero is an infinity,
    zero over zero is NaN (a RuntimeWarning, not an exception). *)
Definition fdiv (a b : float) : float :=
  match a, b with
  | NaN, _ | _, NaN => NaN
  | Fin x, Fin y =>
      if Qeq_bool y 0 then
        match Qsign x with Gt => PInf | Lt => NInf | Eq => NaN end
      else Fin (x / y)%Q
  | Fin _, (PInf | NInf) => Fin 0
  | (PInf | NInf), (PInf | NInf) => NaN
  | PInf, Fin y => if Qltb y 0 then NInf else PInf
  | NInf, Fin y => if Qltb y 0 then PInf else NInf
  end.

(** [a < b]; every comparison with NaN is false. *)
Definition flt (a b : float) : bool :=
  match a, b with
  | NaN, _ | _, NaN => false
  | Fin x, Fin y => Qltb x y
  | NInf, (Fin _ | PInf) => true
  | Fin _, PInf => true
  | _, _ => false
  end.

(** [a > b]. *)
Definition fgt (a b : float) : bool := flt b a.

(** [a <= b]; every comparison with NaN is false. *)
Definition fle (a b : float) : bool :=
  match a, b with
  | NaN, _ | _, NaN => false
  | Fin x, Fin y => Qle_bool x y
  | NInf, _ => true
  | _, PInf => true
  | _, _ => false
  end.

Definition of_Z (n : Z) : float := Fin (inject_Z n).
Definition of_nat (n : nat) : float := of_Z (Z.of_nat n).

End Float.
Export Float.

(* ================================================================== *)
(** ** pandas Series reductions *)

(** A [Series] of discharge values, in positional order. *)
Definition Series := list float.

Module Pandas.

(** [Series.dropna()]: a new series without the missing values.  The
    receiver is left as it is. *)
Definition dropna (s : Series) : Series := filter notna s.

(** [Series.count()]: number of non-missing cells. *)
Definition count (s : Series) : nat := length (dropna s).

(** [Series.sum()]: missing cells are skipped, the empty sum is 0. *)
Definition sum (s : Series) : float := fold_left fadd (dropna s) (Fin 0).

(** [Series.mean()]: the sum over the count of the non-missing cells, NaN
    when there is none. *)
Definition mean (s : Series) : float :=
  match count s with
  | O => NaN
  | n => fdiv (sum s) (of_nat n)
  end.

Definition fmin (a b : float) : float := if fle b a then b else a.
Definition fmax (a b : float) : float := if fle a b then b else a.

(** [Series.min()] and [Series.max()]: over the non-missing cells, NaN when
    there is none. *)
Definition min (s : Series) : float :=
  match dropna s with
  | [] => NaN
  | x :: xs => fold_left fmin xs x
  end.

Definition max (s : Series) : float :=
  match dropna s with
  | [] => NaN
  | x :: xs => fold_left fmax xs x
  end.

Fixpoint insert (x : float) (l : list float) : list float :=
  match l with
  | [] => [x]
  | y :: l' => if fle x y then x :: l else y :: insert x l'
  end.

Definition sort (l : list float) : list float := fold_right insert [] l.

(** [Series.median()]: the middle of the sorted non-missing cells, the
    mean of the two middle ones when their number is even, NaN when there
    is none. *)
Definition median (s : Series) : float :=
  let v := sort (dropna s) in
  let n := length v in
  match n with
  | O => NaN
  | _ =>
      if Nat.even n
      then fdiv (fadd (nth (n / 2 - 1) v NaN) (nth (n / 2) v NaN)) (of_Z 2)
      else nth (n / 2) v NaN
  end.

(** Positional access [s[i]]; every use below is within bounds. *)
Definition iloc (s : Series) (i : nat) : float := nth i s NaN.

(** The cells of the trailing window of [w] positions that ends at [i]. *)
Definition window (w : nat) (s : Series) (i : nat) : Series :=
  firstn w (skipn (i + 1 - w) s).

(** [rolling()] works on a copy of the values in which the infinite cells
    are missing. *)
Definition kill_inf (a : float) : float :=
  match a with
  | PInf | NInf => NaN
  | _ => a
  end.

(** [Series.rolling(window=w).mean()]: at position [i] the mean of the
    cells [i-w+1 .. i] when the window is complete and all its cells are
    present ([min_periods] defaults to the window size), NaN otherwise.
    pandas keeps a running sum from window to window; in exact arithmetic
    that is the sum of the window. *)
Definition rolling_mean_at (w : nat) (s : Series) (i : nat) : float :=
  let values := map kill_inf s in
  if (w <=? i + 1)%nat && forallb notna (window w values i)
  then mean (window w values i)
  else NaN.

Definition rolling_mean (w : nat) (s : Series) : Series :=
  map (rolling_mean_at w s) (seq 0 (length s)).

(** Boolean selection [s.loc[mask]] for a mask computed cell by cell. *)
Definition loc (p : float -> bool) (s : Series) : Series := filter p s.

End Pandas.

(* ================================================================== *)
(** ** The metric functions *)

(** [CalcTqmean]: [Qvalues.dropna()] returns a new series that is thrown
    away, so the statistics run on [Qvalues] itself; [mean] and [count]
    skip the missing cells and [Qvalues > qMean] is false on them. *)
Definition CalcTqmean (Qvalues : Series) : float :=
  let _ := Pandas.dropna Qvalues in
  let qMean := Pandas.mean Qvalues in
  let totalDataPoints := Pandas.count Qvalues in
  let greaterThanMean :=
    Pandas.count (Pandas.loc (fun v => fgt v qMean) Qvalues) in
  fdiv (of_nat greaterThanMean) (of_nat totalDataPoints).

(** The path length accumulated by the loop of [CalcRBindex]. *)
Definition pathlength (Qvalues : Series) : float :=
  fold_left
    (fun deltaDischarge i =>
       fadd deltaDischarge
            (fabs (fsub (Pandas.iloc Qvalues i) (Pandas.iloc Qvalues (i + 1)))))
    (seq 0 (length Qvalues - 1))
    (of_Z 0).

Definition CalcRBindex (Qvalues : Series) : float :=
  let _ := Pandas.dropna Qvalues in
  let totalDischarge := Pandas.sum Qvalues in
  let deltaDischarge := pathlength Qvalues in
  fdiv deltaDischarge totalDischarge.

Definition Calc7Q (Qvalues : Series) : float :=
  let _ := Pandas.dropna Qvalues in
  let moveAVG := Pandas.rolling_mean 7 Qvalues in
  Pandas.min moveAVG.

(** [CalcExceed3TimesMedian] returns a count (an integer). *)
Definition CalcExceed3TimesMedian (Qvalues : Series) : nat :=
  let qMedian := Pandas.median Qvalues in
  Pandas.count (Pandas.loc (fun v => fgt v (fmul (of_Z 3) qMedian)) Qvalues).

(* ================================================================== *)
(** ** The metric functions on binary64 *)

(** The same functions on the numbers the machine holds: the binary64
    numbers of the kernel, with the IEEE 754 operations rounded to nearest
    even, which are those of numpy and Python.  They serve to evaluate the
    code on given readings where rounding or overflow decides the
    result. *)
Module Binary64.
Import PrimFloat.

Definition Series := list float.

Definition isna (a : float) : bool := is_nan a.
Definition notna (a : float) : bool := negb (isna a).

Definition dropna (s : Series) : Series := filter notna s.
Definition count (s : Series) : nat := length (dropna s).

(** A count as a binary64 number (exact below 2^53). *)
Definition of_nat (n : nat) : float :=
  Nat.iter n (fun x => add x one) zero.

(** [Series.sum()]: the present cells added one after the other from the
    first, the order of numpy on fewer than eight cells (longer arrays are
    added in blocks). *)
Definition sum (s : Series) : float := fold_left add (dropna s) zero.

Definition mean (s : Series) : float :=
  match count s with
  | O => nan
  | n => div (sum s) (of_nat n)
  end.

Definition iloc (s : Series) (i : nat) : float := nth i s nan.
Definition loc (p : float -> bool) (s : Series) : Series := filter p s.

Definition CalcTqmean (Qvalues : Series) : float :=
  let _ := dropna Qvalues in
  let qMean := mean Qvalues in
  let totalDataPoints := count Qvalues in
  let greaterThanMean := count (loc (fun v => ltb qMean v) Qvalues) in
  div (of_nat greaterThanMean) (of_nat totalDataPoints).

Definition pathlength (Qvalues : Series) : float :=
  fold_left
    (fun deltaDischarge i =>
       add deltaDischarge (abs (sub (iloc Qvalues i) (iloc Qvalues (i + 1)))))
    (seq 0 (length Qvalues - 1))
    zero.

Definition CalcRBindex (Qvalues : Series) : float :=
  let _ := dropna Qvalues in
  let totalDischarge := sum Qvalues in
  let deltaDischarge := pathlength Qvalues in
  div deltaDischarge totalDischarge.

End Binary64.

(* ================================================================== *)
(** ** Dates *)

(** A day of the daily index: days since 1970-01-01. *)
Definition Timestamp := Z.

Module Calendar.

Definition is_leap (y : Z) : bool :=
  ((y mod 4 =? 0) && negb (y mod 100 =? 0)) || (y mod 400 =? 0).

(** Day number of the civil date [y-m-d] (proleptic Gregorian calendar). *)
Definition days_from_civil (y m d : Z) : Timestamp :=
  let y' := if m <=? 2 then y - 1 else y in
  let era := y' / 400 in
  let yoe := y' - era * 400 in
  let doy := (153 * (if 2 <? m then m - 3 else m + 9) + 2) / 5 + d - 1 in
  let doe := yoe * 365 + yoe / 4 - yoe / 100 + doy in
  era * 146097 + doe - 719468.

(** Civil date [(year, month, day)] of a day number. *)
Definition civil_from_days (t : Timestamp) : Z * Z * Z :=
  let z := t + 719468 in
  let era := z / 146097 in
  let doe := z - era * 146097 in
  let yoe := (doe - doe / 1460 + doe / 36524 - doe / 146096) / 365 in
  let y := yoe + era * 400 in
  let doy := doe - (365 * yoe + yoe / 4 - yoe / 100) in
  let mp := (5 * doy + 2) / 153 in
  let d := doy - (153 * mp + 2) / 5 + 1 in
  let m := if mp <? 10 then mp + 3 else mp - 9 in
  (if m <=? 2 then y + 1 else y, m, d).

Definition year (t : Timestamp) : Z := fst (fst (civil_from_days t)).
Definition month (t : Timestamp) : Z := snd (fst (civil_from_days t)).
Definition day (t : Timestamp) : Z := snd (civil_from_days t).

(** October 1 and September 30 of the calendar year [y]. *)
Definition oct1 (y : Z) : Timestamp := days_from_civil y 10 1.
Definition sep30 (y : Z) : Timestamp := days_from_civil y 9 30.
Definition feb29 (y : Z) : Timestamp := days_from_civil y 2 29.

(** The calendar years whose water year, and the end date computed for the
    one after it, fit a nanosecond [pd.Timestamp] (1677-09-21 .. 2262-04-11). *)
Definition year_in_range (y : Z) : Prop := 1678 <= y <= 2260.

End Calendar.
Import Calendar.

(* ================================================================== *)
(** ** The station table *)

(** One row of the table read from a station file; [Date] is the index. *)
Record Row : Type := mkRow {
  Date : Timestamp;
  agency_cd : string;
  site_no : string;
  Discharge : float;
  Quality : string
}.

Definition DataFrame := list Row.

Definition set_Discharge (v : float) (r : Row) : Row :=
  mkRow (Date r) (agency_cd r) (site_no r) v (Quality r).

(** The column [DataDF['Discharge']], in index order. *)
Definition Discharge_col (DataDF : DataFrame) : Series := map Discharge DataDF.

(** The index of the table. *)
Definition index (DataDF : DataFrame) : list Timestamp := map Date DataDF.

(** [isna().sum()] on a column. *)
Definition isna_sum (s : Series) : nat := length (filter isna s).

(** The index is ascending with no duplicate date. *)
Fixpoint ascending (l : list Timestamp) : Prop :=
  match l with
  | [] => True
  | d :: l' => (match l' with [] => True | d' :: _ => d < d' end) /\ ascending l'
  end.

(** Label slicing [DataDF[startDate:endDate]] on the ascending date index:
    the rows whose date lies between the two labels, both included.  With
    the date strings of the script the same rows are selected whatever the
    order of the index; with [pd.Timestamp] labels, as in the two loops, an
    index out of date order raises [KeyError] instead. *)
Definition slice (DataDF : DataFrame) (startDate endDate : Timestamp) : DataFrame :=
  filter (fun r => (startDate <=? Date r) && (Date r <=? endDate)) DataDF.

(** [ReadData], from the table that [pd.read_csv] and [set_index('Date')]
    return ([parsed]): the gross error check and the count of missing
    values.  Reading the file itself is outside the model.  The assignment
    through [DataDF['Discharge'].loc[...]] writes into the column of
    [DataDF]. *)
Definition ReadData (parsed : DataFrame) : DataFrame * nat :=
  let DataDF :=
    map (fun r => if flt (Discharge r) (of_Z 0) then set_Discharge NaN r else r)
        parsed in
  let MissingValues := isna_sum (Discharge_col DataDF) in
  (DataDF, MissingValues).

Definition ClipData (DataDF : DataFrame) (startDate endDate : Timestamp)
  : DataFrame * nat :=
  let DataDF := slice DataDF startDate endDate in
  let MissingValues := isna_sum (Discharge_col DataDF) in
  (DataDF, MissingValues).

(* ================================================================== *)
(** ** Water-year statistics *)

(** Calendar year of the October 1 that opens the water year of [t]. *)
Definition water_year_start (t : Timestamp) : Z :=
  if 10 <=? month t then year t else year t - 1.

(** The cells dated in the water year that starts on October 1 of [y]. *)
Definition bin_AS_OCT (DataDF : DataFrame) (y : Z) : Series :=
  Discharge_col
    (filter (fun r => (oct1 y <=? Date r) && (Date r <? oct1 (y + 1))) DataDF).

(** [resample('AS-OCT', label='left')] on the ascending date index: one
    bin per water year from the one of the first row to the one of the last
    row, labelled by its October 1, holding the cells dated in it. *)
Definition resample_AS_OCT (DataDF : DataFrame) : list (Timestamp * Series) :=
  match DataDF with
  | [] => []
  | r0 :: _ =>
      let y0 := water_year_start (Date r0) in
      let y1 := water_year_start (Date (last DataDF r0)) in
      map (fun k => let y := y0 + Z.of_nat k in (oct1 y, bin_AS_OCT DataDF y))
          (seq 0 (Z.to_nat (y1 - y0 + 1)))
  end.

(** End of the period that starts on [startDate]: 365 days later, moved
    back one day when that day falls in October. *)
Definition period_end (startDate : Timestamp) : Timestamp :=
  let endDate := startDate + 365 in
  if month endDate =? 10 then endDate - 1 else endDate.

(** The date ranges visited by [n] iterations of the water-year loop. *)
Fixpoint windows (n : nat) (startDate endDate : Timestamp)
  : list (Timestamp * Timestamp) :=
  match n with
  | O => []
  | S n' =>
      let startDate' := endDate + 1 in
      (startDate, endDate) :: windows n' startDate' (period_end startDate')
  end.

(** One row of the water-year table. *)
Record WYRow : Type := mkWYRow {
  WY_label : Timestamp;
  Mean_Flow : float;
  Peak_Flow : float;
  Median_Flow : float;
  Coeff_Var : float;
  Skew : float;
  Tqmean : float;
  RB_Index : float;
  Q7 : float;
  Median3x : nat
}.

Section AnnualStatistics.

(** Library statistics that are not rational functions of the data:
    [Series.std()] and [scipy.stats.skew(..., nan_policy='omit')]. *)
Variable std : Series -> float.
Variable skew : Series -> float.

(** The five lists filled by the loop, one entry per iteration. *)
Fixpoint annual_loop (DataDF : DataFrame) (n : nat)
         (startDate endDate : Timestamp)
  : list (float * float * float * float * nat) :=
  match n with
  | O => []
  | S n' =>
      let yearDF := slice DataDF startDate endDate in
      let q := Discharge_col yearDF in
      let entry :=
        (skew q, CalcTqmean q, CalcRBindex q, Calc7Q q,
         CalcExceed3TimesMedian q) in
      let startDate' := endDate + 1 in
      entry :: annual_loop DataDF n' startDate' (period_end startDate')
  end.

(** [GetAnnualStatistics]; [None] stands for the [IndexError] of
    [DataDF.index[0]] on a table without rows. *)
Definition GetAnnualStatistics (DataDF : DataFrame) : option (list WYRow) :=
  let WY := resample_AS_OCT DataDF in
  match DataDF with
  | [] => None
  | r0 :: _ =>
      let startDate := Date r0 in
      let endDate := period_end startDate in
      let lists := annual_loop DataDF (length WY) startDate endDate in
      Some
        (map (fun '((lbl, bin), (WYskew, WYtqmean, WYrbindex, WY7q, WY3xmedian)) =>
                let WYmean := Pandas.mean bin in
                mkWYRow lbl WYmean (Pandas.max bin) (Pandas.median bin)
                        (fmul (fdiv (std bin) WYmean) (of_Z 100))
                        WYskew WYtqmean WYrbindex WY7q WY3xmedian)
             (combine WY lists))
  end.

End AnnualStatistics.

(* ================================================================== *)
(** ** Monthly averages *)

(** A table of float columns indexed by [I]. *)
Record Frame (I : Type) : Type := mkFrame {
  columns : list string;
  rows : list (I * list float)
}.
Arguments mkFrame {I} _ _.
Arguments columns {I} _.
Arguments rows {I} _.

(** Cells of column number [j]. *)
Definition column {I} (j : nat) (rs : list (I * list float)) : Series :=
  map (fun r => nth j (snd r) NaN) rs.

(** [DataFrame.mean()]: the mean of every column, missing cells skipped. *)
Definition frame_mean {I} (cols : list string) (rs : list (I * list float))
  : list float :=
  map (fun j => Pandas.mean (column j rs)) (seq 0 (length cols)).

(** Rows of a month table dated in calendar month [m]. *)
Definition rows_of_month (m : Z) (rs : list (Timestamp * list float))
  : list (Timestamp * list float) :=
  filter (fun r => month (fst r) =? m) rs.

Definition GetMonthlyAverages (MoDataDF : Frame Timestamp) : Frame Z :=
  let MonthAVG :=
    map (fun i => frame_mean (columns MoDataDF)
                    (rows_of_month (Z.of_nat i + 1) (rows MoDataDF)))
        (seq 0 12) in
  mkFrame (columns MoDataDF)
          (map (fun i => (Z.of_nat i + 1, nth i MonthAVG [])) (seq 0 12)).

(* ================================================================== *)
(** ** Annual averages *)

(** The columns of the water-year table, in their order; the exceedance
    count is an integer column, averaged as a number. *)
Definition WY_columns : list (WYRow -> float) :=
  [Mean_Flow; Peak_Flow; Median_Flow; Coeff_Var; Skew; Tqmean; RB_Index; Q7;
   fun r => of_nat (Median3x r)].

(** [GetAnnualAverages]: [WYDataDF.mean()], the mean of every column with
    its missing cells skipped. *)
Definition GetAnnualAverages (WYDataDF : list WYRow) : list float :=
  map (fun col => Pandas.mean (map col WYDataDF)) WY_columns.

(* ================================================================== *)
(** ** Monthly statistics *)

Module Months.

Definition days_in_month (y m : Z) : Z :=
  if m =? 2 then (if is_leap y then 29 else 28)
  else if (m =? 4) || (m =? 6) || (m =? 9) || (m =? 11) then 30
  else 31.

(** [t + pd.DateOffset(months=1)]: the same day of the next month, or the
    last day of that month when it is shorter. *)
Definition add_month (t : Timestamp) : Timestamp :=
  let '(y, m, d) := civil_from_days t in
  let y' := if m =? 12 then y + 1 else y in
  let m' := if m =? 12 then 1 else m + 1 in
  days_from_civil y' m' (Z.min d (days_in_month y' m')).

(** Calendar months are numbered in a row: month [m] of year [y] has
    number [12 * y + m - 1]. *)
Definition month_index (t : Timestamp) : Z := 12 * year t + month t - 1.

(** First day of the calendar month of number [i]. *)
Definition month_start (i : Z) : Timestamp :=
  days_from_civil (i / 12) (i mod 12 + 1) 1.

End Months.
Import Months.

(** End of the period that starts on [startDate]: one month later, less a
    day. *)
Definition month_end (startDate : Timestamp) : Timestamp :=
  add_month startDate - 1.

(** The cells dated in the calendar month of number [i]. *)
Definition bin_M (DataDF : DataFrame) (i : Z) : Series :=
  Discharge_col
    (filter (fun r => (month_start i <=? Date r) && (Date r <? month_start (i + 1)))
            DataDF).

(** [resample('M', label='right')] on the ascending date index: one bin
    per calendar month from the month of the first row to the month of the
    last row, labelled by the last day of the month. *)
Definition resample_M (DataDF : DataFrame) : list (Timestamp * Series) :=
  match DataDF with
  | [] => []
  | r0 :: _ =>
      let i0 := month_index (Date r0) in
      let i1 := month_index (Date (last DataDF r0)) in
      map (fun k => let i := i0 + Z.of_nat k in
                    (month_start (i + 1) - 1, bin_M DataDF i))
          (seq 0 (Z.to_nat (i1 - i0 + 1)))
  end.

(** The date ranges visited by [n] iterations of the monthly loop. *)
Fixpoint month_windows (n : nat) (startDate endDate : Timestamp)
  : list (Timestamp * Timestamp) :=
  match n with
  | O => []
  | S n' =>
      let startDate' := endDate + 1 in
      (startDate, endDate) :: month_windows n' startDate' (month_end startDate')
  end.

(** The two lists filled by the monthly loop, one entry per iteration. *)
Fixpoint monthly_loop (DataDF : DataFrame) (n : nat)
         (startDate endDate : Timestamp) : list (float * float) :=
  match n with
  | O => []
  | S n' =>
      let monthDF := slice DataDF startDate endDate in
      let q := Discharge_col monthDF in
      let startDate' := endDate + 1 in
      (CalcTqmean q, CalcRBindex q)
        :: monthly_loop DataDF n' startDate' (month_end startDate')
  end.

(** The rows of a frame labelled within the calendar month of number [i]. *)
Definition rows_in_month (i : Z) (rs : list (Timestamp * list float))
  : list (Timestamp * list float) :=
  filter (fun r => (month_start i <=? fst r) && (fst r <? month_start (i + 1))) rs.

(** [resample('MS', how='sum')] on a frame (pandas 0.22 to 0.25, where
    [how] is accepted and the sum of no value is 0): one row per calendar month from the month of the first
    label to the month of the last label, labelled by the first day of the
    month, each cell the sum of the cells of the column in that month with
    the missing ones skipped, so 0 when all are missing. *)
Definition resample_MS_sum (f : Frame Timestamp) : Frame Timestamp :=
  mkFrame (columns f)
    (match rows f with
     | [] => []
     | r0 :: _ =>
         let i0 := month_index (fst r0) in
         let i1 := month_index (fst (last (rows f) r0)) in
         map (fun k => let i := i0 + Z.of_nat k in
                       (month_start i,
                        map (fun j => Pandas.sum (column j (rows_in_month i (rows f))))
                            (seq 0 (length (columns f)))))
             (seq 0 (Z.to_nat (i1 - i0 + 1)))
     end).

Section MonthlyStatistics.

Variable std : Series -> float.

(** The frame [mDF] of [GetMonthlyStatistics], before its last step. *)
Definition monthly_frame (DataDF : DataFrame) (startDate : Timestamp)
  : Frame Timestamp :=
  let M := resample_M DataDF in
  let endDate := month_end startDate in
  let lists := monthly_loop DataDF (length M) startDate endDate in
  mkFrame ["Mean Flow"; "Coeff Var"; "Tqmean"; "R-B Index"]%string
    (map (fun '((lbl, bin), (mTQ, mRB)) =>
            let mMean := Pandas.mean bin in
            (lbl, [mMean; fmul (fdiv (std bin) mMean) (of_Z 100); mTQ; mRB]))
         (combine M lists)).

(** [GetMonthlyStatistics]; [None] stands for the [IndexError] of
    [DataDF.index[0]] on a table without rows. *)
Definition GetMonthlyStatistics (DataDF : DataFrame) : option (Frame Timestamp) :=
  match DataDF with
  | [] => None
  | r0 :: _ => Some (resample_MS_sum (monthly_frame DataDF (Date r0)))
  end.

End MonthlyStatistics.

(* ================================================================== *)
(** ** The script *)

(** The tables computed for one station. *)
Record StationTables : Type := mkStationTables {
  ST_DataDF : DataFrame;
  ST_MissingValues : nat;
  ST_WYDataDF : list WYRow;
  ST_AnnualAverages : list float;
  ST_MoDataDF : Frame Timestamp;
  ST_MonthlyAverages : Frame Z
}.

(** The two bounds of the period the script clips to. *)
Definition clip_start : Timestamp := days_from_civil 1969 10 1.
Definition clip_end : Timestamp := days_from_civil 2019 9 30.

Section Script.

Variable std : Series -> float.
Variable skew : Series -> float.

(** One turn of the loop over the stations, from the table read from the
    station file; the printing is left out.  [None] stands for an
    exception, which ends the script. *)
Definition process_station (parsed : DataFrame) : option StationTables :=
  let '(DataDF, _) := ReadData parsed in
  let '(DataDF, MissingValues) := ClipData DataDF clip_start clip_end in
  match GetAnnualStatistics std skew DataDF with
  | None => None
  | Some WYDataDF =>
      let AnnualAverages := GetAnnualAverages WYDataDF in
      match GetMonthlyStatistics std DataDF with
      | None => None
      | Some MoDataDF =>
          Some (mkStationTables DataDF MissingValues WYDataDF AnnualAverages
                                MoDataDF (GetMonthlyAverages MoDataDF))
      end
  end.

(** The script body up to the four tables it writes: the stations are
    processed in the order Wildcat, Tippe, and the tables of the two are put
    one after the other, each row with the name of its station. *)
Definition main (Wildcat Tippe : DataFrame)
  : option (list (WYRow * string) * list ((Timestamp * list float) * string)
            * list (list float * string) * list ((Z * list float) * string)) :=
  match process_station Wildcat with
  | None => None
  | Some w =>
      match process_station Tippe with
      | None => None
      | Some t =>
          let tag {A} (name : string) (l : list A) := map (fun x => (x, name)) l in
          Some (tag "Wildcat"%string (ST_WYDataDF w) ++ tag "Tippe"%string (ST_WYDataDF t),
                tag "Wildcat"%string (rows (ST_MoDataDF w))
                  ++ tag "Tippe"%string (rows (ST_MoDataDF t)),
                [(ST_AnnualAverages w, "Wildcat"%string);
                 (ST_AnnualAverages t, "Tippe"%string)],
                tag "Wildcat"%string (rows (ST_MonthlyAverages w))
                  ++ tag "Tippe"%string (rows (ST_MonthlyAverages t)))
      end
  end.

End Script.

(* ================================================================== *)
(** * Vocabulary of the properties *)

(** ** Calendar checks *)

(** Bounded universal quantification, decided by evaluation. *)
Fixpoint forall_from (P : Z -> bool) (lo : Z) (n : nat) : bool :=
  match n with
  | O => true
  | S n' => P lo && forall_from P (lo + 1) n'
  end.

(** The calendar has a February 29 in year [y]. *)
Definition has_feb29 (y : Z) : bool :=
  let '(yf, mf, df) := civil_from_days (feb29 y) in
  (yf =? y) && (mf =? 2) && (df =? 29).

(** What is checked for each year [y]. *)
Definition year_check (y : Z) : bool :=
  let '(yo, mo, do) := civil_from_days (oct1 y) in
  let '(ys, ms, ds) := civil_from_days (sep30 y) in
  (yo =? y) && (mo =? 10) && (do =? 1)
  && (ys =? y) && (ms =? 9) && (ds =? 30)
  && (sep30 y + 1 =? oct1 y)
  && (period_end (oct1 y) =? sep30 (y + 1))
  && (sep30 (y + 1) - oct1 y + 1 =? (if has_feb29 (y + 1) then 366 else 365))
  && (if has_feb29 (y + 1)
      then (oct1 y <=? feb29 (y + 1)) && (feb29 (y + 1) <=? sep30 (y + 1))
      else true)
  && Bool.eqb (has_feb29 (y + 1)) (is_leap (y + 1)).

(** ** Demonstration data *)

(** A reading of the Wildcat Creek station on the day [y-m-d]. *)
Definition reading (y m d : Z) (v : float) : Row :=
  mkRow (days_from_civil y m d) "USGS" "03335000" v "A".

(** A few readings from 2018-10-01 to 2020-09-30: two full water years. *)
Definition two_years : DataFrame :=
  [ reading 2018 10 1 (of_Z 10); reading 2019 3 15 (of_Z 40);
    reading 2019 9 30 (of_Z 5);  reading 2019 10 1 (of_Z 7);
    reading 2020 2 29 (of_Z 90); reading 2020 9 30 (of_Z 3) ].

(** A stand-in for the two library statistics. *)
Definition no_stat : Series -> float := fun _ => NaN.

(** The series of the seven readings 1 .. 7. *)
Definition one_to_seven : Series := map of_Z [1; 2; 3; 4; 5; 6; 7].

(** Two Januaries and one March, with one column. *)
Definition monthly_table : Frame Timestamp :=
  mkFrame ["Mean Flow"%string]
          [ (days_from_civil 2018 1 1, [of_Z 2]);
            (days_from_civil 2018 3 1, [of_Z 9]);
            (days_from_civil 2019 1 1, [of_Z 4]) ].

(** ** Tables and series *)

(** The row of the annual table for the water year that starts in [y]. *)
Definition water_year_row (std skew : Series -> float)
           (DataDF : DataFrame) (y : Z) : WYRow :=
  let q := bin_AS_OCT DataDF y in
  mkWYRow (oct1 y) (Pandas.mean q) (Pandas.max q) (Pandas.median q)
          (fmul (fdiv (std q) (Pandas.mean q)) (of_Z 100))
          (skew q) (CalcTqmean q) (CalcRBindex q) (Calc7Q q)
          (CalcExceed3TimesMedian q).

(** Absolute differences of the consecutive pairs of a series. *)
Fixpoint diffs (l : Series) : Series :=
  match l with
  | a :: (b :: _) as t => fabs (fsub a b) :: diffs t
  | _ => []
  end.


(** Sum of a list of rationals. *)
Fixpoint Qsum (l : list Q) : Q :=
  match l with
  | [] => 0
  | x :: t => x + Qsum t
  end.

(** Absolute differences of the consecutive pairs of rationals. *)
Fixpoint Qdiffs (l : list Q) : list Q :=
  match l with
  | a :: (b :: _) as t => Qabs (a + - b) :: Qdiffs t
  | _ => []
  end.

(** The sum of the day-to-day changes of a series, each value less the one
    before it: what the loop of [CalcRBindex] accumulates when the absolute
    value leaves every difference as it is. *)
Definition rises (Qvalues : Series) : float :=
  fold_left
    (fun acc i =>
       fadd acc (fsub (Pandas.iloc Qvalues (i + 1)) (Pandas.iloc Qvalues i)))
    (seq 0 (length Qvalues - 1))
    (of_Z 0).

(** Differences of the consecutive pairs of a series, each value less the
    one before it. *)
Fixpoint steps (l : Series) : Series :=
  match l with
  | a :: (b :: _) as t => fsub b a :: steps t
  | _ => []
  end.

(** The same on rationals. *)
Fixpoint Qsteps (l : list Q) : list Q :=
  match l with
  | a :: (b :: _) as t => (b + - a)%Q :: Qsteps t
  | _ => []
  end.

(** Each value is at least the one before it. *)
Fixpoint nondecreasing (l : list Q) : Prop :=
  match l with
  | a :: (b :: _) as t => (a <= b)%Q /\ nondecreasing t
  | _ => True
  end.

(** Every cell is missing or finite, as in a table of readings. *)
Definition present_finite (s : Series) : Prop :=
  forall v, In v s -> v = NaN \/ exists q, v = Fin q.

(** A position whose trailing window of [w] days is complete and present. *)
Definition valid_window (w : nat) (s : Series) (i : nat) : Prop :=
  (i < length s)%nat /\ (w <= i + 1)%nat /\
  forallb notna (Pandas.window w s i) = true.

(** The gross error check on one cell. *)
Definition checked (v : float) : float := if flt v (of_Z 0) then NaN else v.

(** The row of calendar month [m] in the averages of [MoDataDF]. *)
Definition month_average (MoDataDF : Frame Timestamp) (m : Z) : list float :=
  map (fun j => Pandas.mean (column j (rows_of_month m (rows MoDataDF))))
      (seq 0 (length (columns MoDataDF))).

(** ** Vocabulary of the further properties *)

(** A cell that passes the gross error check: missing, or not below 0. *)
Definition not_negative (v : float) : Prop :=
  v = NaN \/ v = PInf \/ exists q, v = Fin q /\ (0 <= q)%Q.

(** Finite values none of which is below 0. *)
Definition all_nonneg (qs : list Q) : Prop := forall q, In q qs -> (0 <= q)%Q.

(** The sort of [Pandas.sort] on finite values. *)
Fixpoint Qinsert (x : Q) (l : list Q) : list Q :=
  match l with
  | [] => [x]
  | y :: l' => if Qle_bool x y then x :: l else y :: Qinsert x l'
  end.

Definition Qsort (l : list Q) : list Q := fold_right Qinsert [] l.

(** Each value is at most every later one. *)
Fixpoint Qsorted (l : list Q) : Prop :=
  match l with
  | [] => True
  | a :: t => (forall x, In x t -> (a <= x)%Q) /\ Qsorted t
  end.

(** The present values of a series are none below 0. *)
Definition present_nonneg (s : Series) : Prop :=
  forall q, In (Fin q) s -> (0 <= q)%Q.

(** Each date range starts the day after the one before it ends. *)
Fixpoint chained (l : list (Timestamp * Timestamp)) : Prop :=
  match l with
  | w :: (w' :: _) as t => fst w' = snd w + 1 /\ chained t
  | _ => True
  end.

(** A table holds a reading dated [d]. *)
Definition has_reading (DataDF : DataFrame) (d : Timestamp) : Prop :=
  exists r, In r DataDF /\ Date r = d.

(** The numbers of the calendar months of the years that fit a
    [pd.Timestamp] with the month after them (1678-01 .. 2260-12). *)
Definition month_in_range (i : Z) : Prop := 12 * 1678 <= i <= 12 * 2260 + 11.

(** What is checked for each calendar month of number [i]. *)
Definition month_check (i : Z) : bool :=
  let s := month_start i in
  let '(y, m, d) := civil_from_days s in
  (y =? i / 12) && (m =? i mod 12 + 1) && (d =? 1)
  && (month_index s =? i)
  && (month_end s =? month_start (i + 1) - 1)
  && (month_index (month_start (i + 1) - 1) =? i)
  && (month_start i <? month_start (i + 1)).

(** A cell after [resample('MS', how='sum')] on a month of one row: the
    sum of the one-cell column. *)
Definition summed (v : float) : float := Pandas.sum [v].

(** The row of the monthly table for the calendar month of number [i],
    from the readings dated in that month. *)
Definition month_row (std : Series -> float) (DataDF : DataFrame) (i : Z)
  : Timestamp * list float :=
  let q := bin_M DataDF i in
  (month_start i,
   [summed (Pandas.mean q);
    summed (fmul (fdiv (std q) (Pandas.mean q)) (of_Z 100));
    summed (CalcTqmean q);
    summed (CalcRBindex q)]).

(** Readings of January to March 2019, with none valid in February. *)
Definition three_months : DataFrame :=
  [ reading 2019 1 1 (of_Z 1); reading 2019 1 2 (of_Z 3);
    reading 2019 2 1 NaN;
    reading 2019 3 30 (of_Z 5); reading 2019 3 31 (of_Z 7) ].

(** The month-end labels of [n] months in a row from the month [i0], each
    with its cells. *)
Definition month_end_rows (i0 : Z) (n : nat) (cells : nat -> list float)
  : list (Timestamp * list float) :=
  map (fun k => (month_start (i0 + Z.of_nat k + 1) - 1, cells k)) (seq 0 n).

(** The cells of row number [k] of the table of statistics of
    [GetMonthlyStatistics], for a table whose first month has number [i0]:
    mean and coefficient of variation of the readings of the month, Tqmean
    and R-B index of the readings of the [k]-th range of the loop. *)
Definition monthly_cells (std : Series -> float) (DataDF : DataFrame)
           (i0 : Z) (W : list (Timestamp * Timestamp)) (k : nat) : list float :=
  let bin := bin_M DataDF (i0 + Z.of_nat k) in
  let w := nth k W (0, 0) in
  let q := Discharge_col (slice DataDF (fst w) (snd w)) in
  [Pandas.mean bin; fmul (fdiv (std bin) (Pandas.mean bin)) (of_Z 100);
   CalcTqmean q; CalcRBindex q].


(* ================================================================== *)
(** * Properties *)

(** ** Calendar facts on the range of [pd.Timestamp] *)

Module CalendarFacts.

Lemma forall_from_spec (P : Z -> bool) (n : nat) :
  forall lo, forall_from P lo n = true ->
  forall z, lo <= z < lo + Z.of_nat n -> P z = true.
Proof.
  induction n as [|n IH]; intros lo H z Hz.
  - simpl in Hz. lia.
  - simpl in H. apply andb_true_iff in H as [H0 H1].
    destruct (Z.eq_dec z lo) as [->|Hne]; [assumption|].
    apply (IH (lo + 1) H1). lia.
Qed.

Lemma year_check_all : forall_from year_check 1678 (Z.to_nat 584) = true.
Proof. vm_compute. reflexivity. Qed.

Lemma year_facts (y : Z) :
  year_in_range y ->
  civil_from_days (oct1 y) = (y, 10, 1) /\
  civil_from_days (sep30 y) = (y, 9, 30) /\
  sep30 y + 1 = oct1 y /\
  period_end (oct1 y) = sep30 (y + 1) /\
  sep30 (y + 1) - oct1 y + 1 = (if has_feb29 (y + 1) then 366 else 365) /\
  (has_feb29 (y + 1) = true ->
   oct1 y <= feb29 (y + 1) <= sep30 (y + 1)) /\
  has_feb29 (y + 1) = is_leap (y + 1).
Proof.
  intros Hy. unfold year_in_range in Hy.
  assert (H : year_check y = true).
  { apply (forall_from_spec _ _ _ year_check_all). lia. }
  unfold year_check in H.
  destruct (civil_from_days (oct1 y)) as [[yo mo] do].
  destruct (civil_from_days (sep30 y)) as [[ys ms] ds].
  repeat (apply andb_true_iff in H; destruct H as [H ?]).
  repeat match goal with
         | E : (_ =? _) = true |- _ => apply Z.eqb_eq in E
         | E : Bool.eqb _ _ = true |- _ => apply eqb_prop in E
         end.
  subst. repeat split; try assumption.
  - destruct (has_feb29 (y + 1)); [|discriminate].
    apply andb_true_iff in H1 as [H1 _]. apply Z.leb_le in H1. exact H1.
  - destruct (has_feb29 (y + 1)); [|discriminate].
    apply andb_true_iff in H1 as [_ H1]. apply Z.leb_le in H1. exact H1.
Qed.

End CalendarFacts.

(* ================================================================== *)
(** ** Water-year partitioning *)

Module WaterYear.
Import CalendarFacts.

Lemma windows_length (n : nat) :
  forall s e, length (windows n s e) = n.
Proof. induction n; intros; simpl; [reflexivity | now rewrite IHn]. Qed.

Lemma annual_loop_length skew DataDF (n : nat) :
  forall s e, length (annual_loop skew DataDF n s e) = n.
Proof. induction n; intros; simpl; [reflexivity | now rewrite IHn]. Qed.

(** The loop computes its entries on the slices of the visited ranges. *)
Lemma annual_loop_windows skew DataDF (n : nat) :
  forall s e,
    annual_loop skew DataDF n s e =
    map (fun w : Timestamp * Timestamp =>
           let q := Discharge_col (slice DataDF (fst w) (snd w)) in
           (skew q, CalcTqmean q, CalcRBindex q, Calc7Q q,
            CalcExceed3TimesMedian q))
        (windows n s e).
Proof.
  induction n as [|n IH]; intros s e; simpl; [reflexivity|].
  now rewrite IH.
Qed.

(** Started on an October 1, the loop visits the water years one by one. *)
Lemma windows_water_years (n : nat) :
  forall Y, 1678 <= Y -> Y + Z.of_nat n <= 2261 ->
    windows n (oct1 Y) (sep30 (Y + 1)) =
    map (fun k => (oct1 (Y + Z.of_nat k), sep30 (Y + Z.of_nat k + 1)))
        (seq 0 n).
Proof.
  induction n as [|n IH]; intros Y Hlo Hhi; [reflexivity|].
  cbn [windows seq map]. f_equal.
  - now rewrite Z.add_0_r.
  - destruct n as [|n']; [reflexivity|].
    assert (HY : 1678 <= Y + 1 <= 2261) by lia.
    assert (F := forall_from_spec _ _ _ year_check_all (Y + 1)).
    assert (HC : year_check (Y + 1) = true) by (apply F; lia).
    clear F. unfold year_check in HC.
    destruct (civil_from_days (oct1 (Y + 1))) as [[yo mo] do].
    destruct (civil_from_days (sep30 (Y + 1))) as [[ys ms] ds].
    repeat (apply andb_true_iff in HC; destruct HC as [HC ?]).
    repeat match goal with
           | E : (_ =? _) = true |- _ => apply Z.eqb_eq in E
           end.
    match goal with E : sep30 (Y + 1) + 1 = _ |- _ => rewrite E end.
    match goal with E : period_end _ = _ |- _ => rewrite E end.
    rewrite (IH (Y + 1)) by lia.
    rewrite <- seq_shift, map_map.
    apply map_ext. intros k.
    replace (Y + 1 + Z.of_nat k) with (Y + Z.of_nat (S k)) by lia.
    reflexivity.
Qed.

Lemma last_index (DataDF : DataFrame) (r0 : Row) :
  DataDF <> [] -> Date (last DataDF r0) = last (index DataDF) 0.
Proof.
  induction DataDF as [|r l IH]; intros Hne; [congruence|].
  destruct l as [|r' l']; [reflexivity|].
  change (Date (last (r' :: l') r0) = last (index (r' :: l')) 0).
  apply IH. discriminate.
Qed.

(** A table from an October 1 to a September 30, [N] calendar years later,
    has [N] resampling bins, those of the successive water years. *)
Lemma resample_full_years (DataDF : DataFrame) (Y : Z) (N : nat) :
  year_in_range Y -> year_in_range (Y + Z.of_nat N) ->
  hd_error (index DataDF) = Some (oct1 Y) ->
  last (index DataDF) 0 = sep30 (Y + Z.of_nat N) ->
  resample_AS_OCT DataDF =
  map (fun k => (oct1 (Y + Z.of_nat k), bin_AS_OCT DataDF (Y + Z.of_nat k)))
      (seq 0 N).
Proof.
  intros HY HYN Hhd Hlast.
  destruct DataDF as [|r0 rest]; [discriminate|].
  cbn [index map hd_error] in Hhd. injection Hhd as Hhd.
  unfold resample_AS_OCT.
  rewrite (last_index (r0 :: rest) r0) by discriminate.
  rewrite Hlast, Hhd.
  destruct (year_facts Y HY) as (Ho & _).
  destruct (year_facts (Y + Z.of_nat N) HYN) as (_ & Hs & _).
  unfold water_year_start, month, year. rewrite Ho, Hs. cbn [fst snd].
  change (10 <=? 10) with true. change (10 <=? 9) with false. cbv iota.
  replace (Y + Z.of_nat N - 1 - Y + 1) with (Z.of_nat N) by lia.
  now rewrite Nat2Z.id.
Qed.

(** The slice from October 1 to September 30 holds the cells of the bin. *)
Lemma slice_water_year (DataDF : DataFrame) (y : Z) :
  year_in_range (y + 1) ->
  Discharge_col (slice DataDF (oct1 y) (sep30 (y + 1))) = bin_AS_OCT DataDF y.
Proof.
  intros Hy. destruct (year_facts (y + 1) Hy) as (_ & _ & Hso & _).
  unfold bin_AS_OCT, slice. f_equal. apply filter_ext. intros r.
  f_equal. rewrite <- Hso.
  destruct (Date r <=? sep30 (y + 1)) eqn:E1, (Date r <? sep30 (y + 1) + 1) eqn:E2;
    try reflexivity;
    [apply Z.leb_le in E1; apply Z.ltb_ge in E2
    |apply Z.leb_gt in E1; apply Z.ltb_lt in E2]; lia.
Qed.

Lemma combine_map_seq {A B} (f : nat -> A) (g : nat -> B) (l : list nat) :
  combine (map f l) (map g l) = map (fun k => (f k, g k)) l.
Proof. induction l as [|k l IH]; [reflexivity | simpl; now rewrite IH]. Qed.

(** The period rule: when the day 365 days after the start is an
    October 1, the period ends the day before, a September 30; when that
    day is not in October, the period ends on it. *)
Lemma period_end_rule :
  (forall startDate y,
      year_in_range y -> startDate + 365 = oct1 y ->
      period_end startDate = startDate + 365 - 1 /\
      civil_from_days (period_end startDate) = (y, 9, 30)) /\
  (forall startDate,
      month (startDate + 365) <> 10 ->
      period_end startDate = startDate + 365).
Proof.
  split.
  - intros startDate y Hy Hs. unfold period_end. rewrite Hs.
    destruct (year_facts y Hy) as (Ho & Hsep & Hso & _).
    unfold month. rewrite Ho. cbn [fst snd].
    change (10 =? 10) with true. cbv iota.
    split; [reflexivity|].
    replace (oct1 y - 1) with (sep30 y) by lia. exact Hsep.
  - intros startDate Hm. unfold period_end.
    destruct (month (startDate + 365) =? 10) eqn:E; [|reflexivity].
    apply Z.eqb_eq in E. contradiction.
Qed.

(** The annual table of a series of [N] full water years. *)
Lemma GetAnnualStatistics_full_years
      (std skew : Series -> float) (DataDF : DataFrame) (Y : Z) (N : nat) :
  year_in_range Y -> year_in_range (Y + Z.of_nat N) ->
  hd_error (index DataDF) = Some (oct1 Y) ->
  last (index DataDF) 0 = sep30 (Y + Z.of_nat N) ->
  GetAnnualStatistics std skew DataDF =
  Some (map (fun k => water_year_row std skew DataDF (Y + Z.of_nat k))
            (seq 0 N)).
Proof.
  intros HY HYN Hhd Hlast.
  pose proof (resample_full_years DataDF Y N HY HYN Hhd Hlast) as HWY.
  destruct DataDF as [|r0 rest]; [discriminate|].
  unfold GetAnnualStatistics. rewrite HWY.
  cbn [index map hd_error] in Hhd. injection Hhd as Hhd.
  rewrite Hhd, length_map, length_seq.
  destruct (year_facts Y HY) as (_ & _ & _ & He & _). rewrite He.
  unfold year_in_range in HY, HYN.
  rewrite annual_loop_windows, windows_water_years by lia.
  rewrite map_map, combine_map_seq, map_map.
  f_equal. apply map_ext_in. intros k Hk. apply in_seq in Hk.
  cbn [fst snd]. cbv zeta.
  rewrite slice_water_year by (unfold year_in_range; lia).
  reflexivity.
Qed.

(** C1.  Each period ends 365 days after its start, one day earlier when
    that day is an October 1, which is then a September 30.  For a table
    in ascending date order that runs from an October 1 to the September
    30 that closes the [N]-th water year after it, the annual table has
    [N] rows, one per water year: the row of each water year is labelled by its October 1 and
    computed on its readings; the loop visits exactly the [N] ranges
    October 1 .. September 30; each of them has 366 days when it holds a
    February 29, that is when it ends in a leap year, and 365 days
    otherwise.  The water year
    2019-10-01 .. 2020-09-30 has 366 days. *)
Theorem water_year_partition
        (std skew : Series -> float) (DataDF : DataFrame) (Y : Z) (N : nat) :
  ascending (index DataDF) ->
  year_in_range Y -> year_in_range (Y + Z.of_nat N) ->
  hd_error (index DataDF) = Some (oct1 Y) ->
  last (index DataDF) 0 = sep30 (Y + Z.of_nat N) ->
  (forall startDate y,
      year_in_range y -> startDate + 365 = oct1 y ->
      period_end startDate = startDate + 365 - 1 /\
      civil_from_days (period_end startDate) = (y, 9, 30)) /\
  (forall startDate,
      month (startDate + 365) <> 10 ->
      period_end startDate = startDate + 365) /\
  (exists table,
      GetAnnualStatistics std skew DataDF = Some table /\
      length table = N /\
      table = map (fun k => water_year_row std skew DataDF (Y + Z.of_nat k))
                  (seq 0 N)) /\
  windows N (oct1 Y) (period_end (oct1 Y)) =
    map (fun k => (oct1 (Y + Z.of_nat k), sep30 (Y + Z.of_nat k + 1)))
        (seq 0 N) /\
  (forall k, 0 <= k < Z.of_nat N ->
      sep30 (Y + k + 1) - oct1 (Y + k) + 1 =
        (if has_feb29 (Y + k + 1) then 366 else 365) /\
      (has_feb29 (Y + k + 1) = true ->
       oct1 (Y + k) <= feb29 (Y + k + 1) <= sep30 (Y + k + 1)) /\
      has_feb29 (Y + k + 1) = is_leap (Y + k + 1)) /\
  (civil_from_days (period_end (days_from_civil 2019 10 1)) = (2020, 9, 30) /\
   period_end (days_from_civil 2019 10 1) - days_from_civil 2019 10 1 + 1 = 366).
Proof.
  intros _ HY HYN Hhd Hlast.
  pose proof (GetAnnualStatistics_full_years std skew DataDF Y N
                HY HYN Hhd Hlast) as Htable.
  destruct period_end_rule as [Hrule1 Hrule2].
  split; [exact Hrule1|]. split; [exact Hrule2|].
  unfold year_in_range in HY, HYN.
  split; [|split; [|split]].
  - eexists. split; [exact Htable|].
    split; [now rewrite length_map, length_seq | reflexivity].
  - destruct (year_facts Y) as (_ & _ & _ & He & _);
      [unfold year_in_range; lia|].
    rewrite He. apply windows_water_years; lia.
  - intros k Hk.
    destruct (year_facts (Y + k)) as (_ & _ & _ & _ & Hd & Hf & Hl);
      [unfold year_in_range; lia|].
    split; [exact Hd | split; [exact Hf | exact Hl]].
  - split; reflexivity.
Qed.

Lemma water_year_partition_witness :
  exists table,
    GetAnnualStatistics no_stat no_stat two_years = Some table /\
    length table = 2%nat.
Proof.
  destruct (water_year_partition no_stat no_stat two_years 2018 2)
    as (_ & _ & (table & Ht & Hlen & _) & _).
  - vm_compute. repeat split.
  - unfold year_in_range. lia.
  - unfold year_in_range. simpl. lia.
  - reflexivity.
  - reflexivity.
  - exists table. split; assumption.
Defined.

(** A period that starts in the middle of October: the day 365 days
    later is in October too, and the end moves back one day as well. *)
Example period_end_mid_october :
  civil_from_days (days_from_civil 2019 10 15 + 365) = (2020, 10, 14) /\
  civil_from_days (period_end (days_from_civil 2019 10 15)) = (2020, 10, 13).
Proof. split; reflexivity. Qed.

(** The annual table of the demonstration readings: two rows, labelled
    2018-10-01 and 2019-10-01. *)
Example GetAnnualStatistics_two_years :
  option_map (map (fun r => civil_from_days (WY_label r)))
             (GetAnnualStatistics no_stat no_stat two_years)
  = Some [(2018, 10, 1); (2019, 10, 1)].
Proof. vm_compute. reflexivity. Qed.

End WaterYear.

(* ================================================================== *)
(** ** The metric functions *)

Module Metrics.

(** *** NaN propagates *)

Lemma fadd_NaN_l (a : float) : fadd NaN a = NaN.
Proof. reflexivity. Qed.

Lemma fadd_NaN_r (a : float) : fadd a NaN = NaN.
Proof. destruct a; reflexivity. Qed.

Lemma fsub_NaN_l (a : float) : fsub NaN a = NaN.
Proof. reflexivity. Qed.

Lemma fsub_NaN_r (a : float) : fsub a NaN = NaN.
Proof. destruct a; reflexivity. Qed.

Lemma fdiv_NaN_l (a : float) : fdiv NaN a = NaN.
Proof. reflexivity. Qed.

Lemma fgt_NaN_r (a : float) : fgt a NaN = false.
Proof. reflexivity. Qed.

Lemma isna_NaN (a : float) : isna a = true <-> a = NaN.
Proof. destruct a; simpl; split; congruence. Qed.

Lemma Fin_inj (a b : Q) : Fin a = Fin b -> a = b.
Proof. congruence. Qed.

Lemma all_NaN_dropna (s : Series) :
  (forall v, In v s -> v = NaN) -> Pandas.dropna s = [].
Proof.
  unfold Pandas.dropna.
  induction s as [|v s IH]; intros H; [reflexivity|].
  rewrite (H v (or_introl eq_refl)). simpl.
  apply IH. intros x Hx. apply H. now right.
Qed.

Lemma fold_fadd_NaN (l : list float) : fold_left fadd l NaN = NaN.
Proof. induction l as [|a l IH]; [reflexivity | exact IH]. Qed.

Lemma fold_fadd_In_NaN (l : list float) :
  In NaN l -> forall acc, fold_left fadd l acc = NaN.
Proof.
  induction l as [|a l IH]; intros Hin acc; [contradiction|].
  destruct Hin as [->|Hin]; simpl.
  - rewrite fadd_NaN_r. apply fold_fadd_NaN.
  - now apply IH.
Qed.

(** *** The path length as a sum over consecutive pairs *)

Lemma fold_left_map_r {A B C} (f : A -> C -> A) (g : B -> C) (l : list B) :
  forall acc, fold_left (fun a x => f a (g x)) l acc = fold_left f (map g l) acc.
Proof. induction l as [|x l IH]; intros acc; [reflexivity | apply IH]. Qed.

Lemma diffs_positional (l : Series) :
  map (fun i => fabs (fsub (Pandas.iloc l i) (Pandas.iloc l (i + 1))))
      (seq 0 (length l - 1)) = diffs l.
Proof.
  induction l as [|a l IH]; [reflexivity|].
  destruct l as [|b t]; [reflexivity|].
  replace (length (a :: b :: t) - 1)%nat with (S (length (b :: t) - 1))
    by (simpl; lia).
  cbn [seq map]. rewrite <- seq_shift, map_map.
  change (diffs (a :: b :: t)) with (fabs (fsub a b) :: diffs (b :: t)).
  f_equal. rewrite <- IH. apply map_ext. intros i. reflexivity.
Qed.

Lemma pathlength_diffs (Qvalues : Series) :
  pathlength Qvalues = fold_left fadd (diffs Qvalues) (of_Z 0).
Proof.
  unfold pathlength.
  rewrite (fold_left_map_r fadd
             (fun i => fabs (fsub (Pandas.iloc Qvalues i)
                                  (Pandas.iloc Qvalues (i + 1))))).
  now rewrite diffs_positional.
Qed.

Lemma diffs_In_NaN (l : Series) :
  In NaN l -> (2 <= length l)%nat -> In NaN (diffs l).
Proof.
  induction l as [|a l IH]; intros Hin Hlen; [contradiction|].
  destruct l as [|b t]; [simpl in Hlen; lia|].
  change (diffs (a :: b :: t)) with (fabs (fsub a b) :: diffs (b :: t)).
  destruct Hin as [->|Hin]; [left; reflexivity|].
  destruct t as [|c t'].
  - destruct Hin as [->|[]]. left. now rewrite fsub_NaN_r.
  - right. apply IH; [exact Hin | simpl; lia].
Qed.

Lemma pathlength_NaN (Qvalues : Series) :
  In NaN Qvalues -> (2 <= length Qvalues)%nat -> pathlength Qvalues = NaN.
Proof.
  intros Hin Hlen. rewrite pathlength_diffs.
  apply fold_fadd_In_NaN. now apply diffs_In_NaN.
Qed.

(** C2.  The differences are taken on the series as given: a pair with a
    missing value contributes NaN, the path length of a series of two or
    more values with a missing one is NaN, and the R-B index of every
    series with a missing value is NaN. *)
Theorem CalcRBindex_missing (Qvalues : Series) :
  In NaN Qvalues ->
  (forall i, (i + 1 < length Qvalues)%nat ->
     isna (Pandas.iloc Qvalues i) || isna (Pandas.iloc Qvalues (i + 1)) = true ->
     fabs (fsub (Pandas.iloc Qvalues i) (Pandas.iloc Qvalues (i + 1))) = NaN) /\
  ((2 <= length Qvalues)%nat -> pathlength Qvalues = NaN) /\
  CalcRBindex Qvalues = NaN.
Proof.
  intros Hin. split; [|split].
  - intros i _ Hna. apply orb_true_iff in Hna as [Hna|Hna];
      apply isna_NaN in Hna; rewrite Hna.
    + reflexivity.
    + now rewrite fsub_NaN_r.
  - now apply pathlength_NaN.
  - unfold CalcRBindex.
    destruct Qvalues as [|a [|b t]].
    + contradiction.
    + destruct Hin as [->|[]]. reflexivity.
    + rewrite pathlength_NaN; [reflexivity | exact Hin | simpl; lia].
Qed.

Lemma CalcRBindex_missing_witness :
  CalcRBindex [of_Z 1; NaN; of_Z 3] = NaN.
Proof.
  apply (CalcRBindex_missing [of_Z 1; NaN; of_Z 3]).
  right. left. reflexivity.
Defined.

(** *** Tqmean *)

Lemma inject_nat_pos (n : nat) : (0 < n)%nat -> (0 < inject_Z (Z.of_nat n))%Q.
Proof. intros H. unfold Qlt. simpl. lia. Qed.



Lemma Qeq_bool_nat_pos (n : nat) :
  (0 < n)%nat -> Qeq_bool (inject_Z (Z.of_nat n)) 0 = false.
Proof.
  intros H. destruct (Qeq_bool _ 0) eqn:E; [|reflexivity].
  apply Qeq_bool_iff in E. pose proof (inject_nat_pos n H). lra.
Qed.

(** A finite value over a positive count. *)
Lemma fdiv_by_count (t : Q) (n : nat) :
  (0 < n)%nat -> fdiv (Fin t) (of_nat n) = Fin (t / inject_Z (Z.of_nat n)).
Proof.
  intros H. unfold of_nat, of_Z, fdiv. now rewrite Qeq_bool_nat_pos.
Qed.



(** Selecting by a comparison and then counting the present cells counts
    the present cells that pass the comparison. *)
Lemma count_loc (p : float -> bool) (s : Series) :
  Pandas.count (Pandas.loc p s) = length (filter p (Pandas.dropna s)).
Proof.
  unfold Pandas.count, Pandas.loc, Pandas.dropna.
  induction s as [|v s IH]; [reflexivity|].
  simpl. destruct (p v) eqn:Hp, (notna v) eqn:Hn; simpl;
    rewrite ?Hp, ?Hn; simpl; now rewrite IH.
Qed.

Lemma filter_length_le {A} (p : A -> bool) (l : list A) :
  (length (filter p l) <= length l)%nat.
Proof.
  induction l as [|a l IH]; [simpl; lia|].
  simpl. destruct (p a); simpl; lia.
Qed.





(** *** The R-B index of a gap-free period *)

Lemma fold_fadd_Fin (qs : list Q) :
  forall a, fold_left fadd (map Fin qs) (Fin a) = Fin (fold_left Qplus qs a).
Proof. induction qs as [|q qs IH]; intros a; [reflexivity | apply IH]. Qed.

Lemma fold_Qplus_Qsum (qs : list Q) :
  forall a, (fold_left Qplus qs a == a + Qsum qs)%Q.
Proof.
  induction qs as [|q qs IH]; intros a; simpl; [ring|].
  rewrite IH. ring.
Qed.

Lemma dropna_Fin (qs : list Q) : Pandas.dropna (map Fin qs) = map Fin qs.
Proof.
  unfold Pandas.dropna.
  induction qs as [|q qs IH]; [reflexivity|].
  simpl. now rewrite IH.
Qed.

Lemma diffs_Fin (qs : list Q) : diffs (map Fin qs) = map Fin (Qdiffs qs).
Proof.
  induction qs as [|a qs IH]; [reflexivity|].
  destruct qs as [|b t]; [reflexivity|].
  change (diffs (map Fin (a :: b :: t)))
    with (fabs (fsub (Fin a) (Fin b)) :: diffs (map Fin (b :: t))).
  rewrite IH. reflexivity.
Qed.

Lemma Qsum_Qdiffs_nonneg (qs : list Q) : (0 <= Qsum (Qdiffs qs))%Q.
Proof.
  induction qs as [|a qs IH]; [simpl; lra|].
  destruct qs as [|b t]; [simpl; lra|].
  change (Qdiffs (a :: b :: t)) with (Qabs (a + - b) :: Qdiffs (b :: t)).
  cbn [Qsum]. pose proof (Qabs_nonneg (a + - b)). lra.
Qed.

Lemma Qsum_pos (qs : list Q) :
  qs <> [] -> (forall q, In q qs -> (0 < q)%Q) -> (0 < Qsum qs)%Q.
Proof.
  induction qs as [|a qs IH]; intros Hne Hpos; [congruence|].
  cbn [Qsum]. pose proof (Hpos a (or_introl eq_refl)) as Ha.
  destruct qs as [|b t]; [simpl; lra|].
  assert (0 < Qsum (b :: t))%Q.
  { apply IH; [discriminate|]. intros q Hq. apply Hpos. now right. }
  lra.
Qed.

(** The accumulated changes as a sum over consecutive pairs. *)
Lemma steps_positional (l : Series) :
  map (fun i => fsub (Pandas.iloc l (i + 1)) (Pandas.iloc l i))
      (seq 0 (length l - 1)) = steps l.
Proof.
  induction l as [|a l IH]; [reflexivity|].
  destruct l as [|b t]; [reflexivity|].
  replace (length (a :: b :: t) - 1)%nat with (S (length (b :: t) - 1))
    by (simpl; lia).
  cbn [seq map]. rewrite <- seq_shift, map_map.
  change (steps (a :: b :: t)) with (fsub b a :: steps (b :: t)).
  f_equal. rewrite <- IH. apply map_ext. intros i. reflexivity.
Qed.

Lemma rises_steps (Qvalues : Series) :
  rises Qvalues = fold_left fadd (steps Qvalues) (of_Z 0).
Proof.
  unfold rises.
  rewrite (fold_left_map_r fadd
             (fun i => fsub (Pandas.iloc Qvalues (i + 1))
                            (Pandas.iloc Qvalues i))).
  now rewrite steps_positional.
Qed.

Lemma steps_Fin (qs : list Q) : steps (map Fin qs) = map Fin (Qsteps qs).
Proof.
  induction qs as [|a qs IH]; [reflexivity|].
  destruct qs as [|b t]; [reflexivity|].
  change (steps (map Fin (a :: b :: t)))
    with (fsub (Fin b) (Fin a) :: steps (map Fin (b :: t))).
  rewrite IH. reflexivity.
Qed.

(** On a nondecreasing sequence every absolute difference is the rise. *)
Lemma Qsum_Qdiffs_Qsteps (qs : list Q) :
  nondecreasing qs -> (Qsum (Qdiffs qs) == Qsum (Qsteps qs))%Q.
Proof.
  induction qs as [|a qs IH]; intros Hs; [reflexivity|].
  destruct qs as [|b t]; [reflexivity|].
  destruct Hs as [Hab Hs].
  change (Qdiffs (a :: b :: t)) with (Qabs (a + - b) :: Qdiffs (b :: t)).
  change (Qsteps (a :: b :: t)) with ((b + - a)%Q :: Qsteps (b :: t)).
  cbn [Qsum]. rewrite (IH Hs), Qabs_neg by lra. ring.
Qed.

(** The path length of non-negative values is at most twice their sum. *)
Lemma Qsum_Qdiffs_upper (qs : list Q) :
  all_nonneg qs -> (Qsum (Qdiffs qs) + hd 0 qs <= 2 * Qsum qs)%Q.
Proof.
  induction qs as [|a qs IH]; intros Hpos; [cbn; lra|].
  assert (Ha : (0 <= a)%Q) by (apply Hpos; now left).
  destruct qs as [|b t]; [cbn; lra|].
  assert (Hb : (0 <= b)%Q) by (apply Hpos; right; now left).
  assert (Ht : all_nonneg (b :: t)) by (intros q Hq; apply Hpos; now right).
  specialize (IH Ht).
  change (Qdiffs (a :: b :: t)) with (Qabs (a + - b) :: Qdiffs (b :: t)).
  cbn [Qsum hd] in *.
  assert (Habs : (Qabs (a + - b) <= a + b)%Q).
  { apply Qabs_case; intros; lra. }
  lra.
Qed.

Lemma Qsum_nonneg (qs : list Q) : all_nonneg qs -> (0 <= Qsum qs)%Q.
Proof.
  induction qs as [|a qs IH]; intros Hpos; [cbn; lra|].
  cbn [Qsum]. pose proof (Hpos a (or_introl eq_refl)).
  assert (0 <= Qsum qs)%Q by (apply IH; intros q Hq; apply Hpos; now right).
  lra.
Qed.

(** The R-B index of a gap-free period of values none of which is below 0:
    0 / 0 when they add up to 0, else a number that is not below 0. *)
Lemma CalcRBindex_cases (qs : list Q) :
  all_nonneg qs ->
  ((Qsum qs == 0)%Q /\ CalcRBindex (map Fin qs) = NaN) \/
  ((0 < Qsum qs)%Q /\
   exists r, CalcRBindex (map Fin qs) = Fin r /\ (0 <= r)%Q /\
             (r == Qsum (Qdiffs qs) / Qsum qs)%Q).
Proof.
  intros Hpos.
  pose proof (Qsum_nonneg qs Hpos) as HS0.
  pose proof (Qsum_Qdiffs_upper qs Hpos) as HU.
  assert (Hhd : (0 <= hd 0 qs)%Q).
  { destruct qs as [|a t]; [cbn; lra|]. apply Hpos. now left. }
  pose proof (Qsum_Qdiffs_nonneg qs) as HP.
  unfold CalcRBindex, Pandas.sum.
  rewrite pathlength_diffs, diffs_Fin, dropna_Fin.
  unfold of_Z. rewrite !fold_fadd_Fin.
  pose proof (fold_Qplus_Qsum qs 0%Q) as ES.
  pose proof (fold_Qplus_Qsum (Qdiffs qs) (inject_Z 0)) as EP.
  change (inject_Z 0) with 0%Q in *.
  set (S := fold_left Qplus qs 0%Q) in *.
  set (P := fold_left Qplus (Qdiffs qs) 0%Q) in *.
  unfold fdiv.
  destruct (Qeq_bool S 0%Q) eqn:E.
  - left. apply Qeq_bool_iff in E.
    assert (HS : (Qsum qs == 0)%Q) by lra.
    split; [exact HS|].
    assert (HP0 : (P == 0)%Q) by lra.
    unfold Qsign. rewrite HP0. reflexivity.
  - right. apply Qeq_bool_neq in E.
    assert (HS : (0 < Qsum qs)%Q).
    { destruct (Qlt_le_dec 0 (Qsum qs)) as [H|H]; [exact H|].
      exfalso. apply E. lra. }
    split; [exact HS|].
    exists (P / S)%Q. split; [reflexivity|]. split.
    + apply Qle_shift_div_l; lra.
    + rewrite EP, ES. field. lra.
Qed.

(** C7, amended.  On a gap-free period of positive values the R-B index
    is never below 0, and on a nondecreasing one it is the sum of the
    day-to-day rises, each value less the one before it, over the sum of
    the values. *)
Theorem CalcRBindex_gap_free (qs : list Q) :
  qs <> [] ->
  (forall q, In q qs -> (0 < q)%Q) ->
  flt (CalcRBindex (map Fin qs)) (Fin 0) = false /\
  (nondecreasing qs ->
   feq (CalcRBindex (map Fin qs))
       (fdiv (rises (map Fin qs)) (Pandas.sum (map Fin qs)))).
Proof.
  intros Hne Hpos.
  pose proof (Qsum_pos qs Hne Hpos) as HS.
  destruct (CalcRBindex_cases qs) as [[E _]|(_ & r & Hr & Hr0 & Hrq)].
  { intros q Hq. apply Qlt_le_weak. now apply Hpos. }
  { lra. }
  rewrite Hr. split.
  - unfold flt, Qltb. apply negb_false_iff. now apply Qle_bool_iff.
  - intros Hs. unfold Pandas.sum.
    rewrite rises_steps, steps_Fin, dropna_Fin.
    unfold of_Z. rewrite !fold_fadd_Fin.
    pose proof (fold_Qplus_Qsum qs 0%Q) as ES.
    pose proof (fold_Qplus_Qsum (Qsteps qs) (inject_Z 0)) as ER.
    change (inject_Z 0) with 0%Q in *.
    set (S := fold_left Qplus qs 0%Q) in *.
    set (R := fold_left Qplus (Qsteps qs) 0%Q) in *.
    unfold fdiv.
    destruct (Qeq_bool S 0%Q) eqn:E.
    { apply Qeq_bool_iff in E. lra. }
    unfold feq. rewrite Hrq, ER, ES, (Qsum_Qdiffs_Qsteps qs Hs).
    field. lra.
Qed.

(** On a series without any reading the R-B index is 0 / 0. *)
Example CalcRBindex_empty : CalcRBindex [] = NaN.
Proof. reflexivity. Qed.

(** The readings 1, 2, 4: path length 3, total 7. *)
Example CalcRBindex_increasing :
  feq (CalcRBindex (map Fin [1; 2; 4]%Q)) (Fin (3 # 7)).
Proof. reflexivity. Qed.

Lemma CalcRBindex_gap_free_witness :
  flt (CalcRBindex (map Fin [1; 2; 4]%Q)) (Fin 0) = false /\
  feq (CalcRBindex (map Fin [1; 2; 4]%Q))
      (fdiv (rises (map Fin [1; 2; 4]%Q)) (Pandas.sum (map Fin [1; 2; 4]%Q))).
Proof.
  destruct (CalcRBindex_gap_free [1; 2; 4]%Q) as [H0 Hr].
  - discriminate.
  - intros q Hq. simpl in Hq.
    destruct Hq as [<-|[<-|[<-|[]]]]; reflexivity.
  - split; [exact H0|]. apply Hr. simpl. repeat split; discriminate.
Defined.

(** *** Minimum of a series and the seven-day low flow *)

Lemma present_finite_tail (v : float) (s : Series) :
  present_finite (v :: s) -> present_finite s.
Proof. intros H x Hx. apply H. now right. Qed.

Lemma dropna_finite (s : Series) :
  present_finite s ->
  exists qs, Pandas.dropna s = map Fin qs /\
             forall q, In q qs <-> In (Fin q) s.
Proof.
  unfold Pandas.dropna.
  induction s as [|v s IH]; intros Hpf.
  - exists []. split; [reflexivity|]. intros q. simpl. tauto.
  - destruct (IH (present_finite_tail v s Hpf)) as (qs & Hqs & Hin).
    destruct (Hpf v (or_introl eq_refl)) as [->|[x ->]].
    + exists qs. split; [exact Hqs|].
      intros q. rewrite Hin. simpl. split; [tauto|].
      intros [H|H]; [discriminate | exact H].
    + exists (x :: qs). split; [simpl; now rewrite Hqs|].
      intros q. simpl. rewrite Hin. split.
      * intros [->|H]; [now left | now right].
      * intros [H|H]; [injection H as ->; now left | now right].
Qed.

Lemma fold_fmin_Fin (qs : list Q) :
  forall x, exists m,
    fold_left Pandas.fmin (map Fin qs) (Fin x) = Fin m /\
    (m <= x)%Q /\ (forall q, In q qs -> (m <= q)%Q) /\ (m = x \/ In m qs).
Proof.
  induction qs as [|a qs IH]; intros x.
  - exists x. repeat split; [lra | contradiction | now left].
  - cbn [map fold_left]. unfold Pandas.fmin at 2. cbn [fle].
    destruct (Qle_bool a x) eqn:E.
    + apply Qle_bool_iff in E.
      destruct (IH a) as (m & Hm & Hle & Hall & Hmem).
      exists m. repeat split.
      * exact Hm.
      * lra.
      * intros q [<-|Hq]; [exact Hle | now apply Hall].
      * right. destruct Hmem as [->|Hmem]; [now left | now right].
    + assert (Hlt : (x < a)%Q).
      { apply Qnot_le_lt. intros H. apply Qle_bool_iff in H. congruence. }
      destruct (IH x) as (m & Hm & Hle & Hall & Hmem).
      exists m. repeat split.
      * exact Hm.
      * exact Hle.
      * intros q [<-|Hq]; [lra | now apply Hall].
      * destruct Hmem as [->|Hmem]; [now left | right; now right].
Qed.

(** The minimum of a series of readings: NaN when all are missing, else
    the least present value. *)
Lemma min_spec (s : Series) :
  present_finite s ->
  ((forall v, In v s -> v = NaN) /\ Pandas.min s = NaN) \/
  (exists m, Pandas.min s = Fin m /\ In (Fin m) s /\
             forall q, In (Fin q) s -> (m <= q)%Q).
Proof.
  intros Hpf. destruct (dropna_finite s Hpf) as (qs & Hqs & Hin).
  unfold Pandas.min. rewrite Hqs.
  destruct qs as [|x t].
  - left. split; [|reflexivity].
    intros v Hv. destruct (Hpf v Hv) as [->|[q ->]]; [reflexivity|].
    apply Hin in Hv. contradiction.
  - right. cbn [map].
    destruct (fold_fmin_Fin t x) as (m & Hm & Hle & Hall & Hmem).
    exists m. split; [exact Hm|]. split.
    + apply Hin. destruct Hmem as [->|Hmem]; [now left | now right].
    + intros q Hq. apply Hin in Hq. destruct Hq as [<-|Hq]; [exact Hle|].
      now apply Hall.
Qed.

Lemma In_firstn {A} (n : nat) :
  forall (l : list A) (x : A), In x (firstn n l) -> In x l.
Proof.
  induction n as [|n IH]; intros [|a l] x H; simpl in H; try contradiction.
  destruct H as [->|H]; [now left | right; now apply IH].
Qed.

Lemma In_skipn {A} (n : nat) :
  forall (l : list A) (x : A), In x (skipn n l) -> In x l.
Proof.
  induction n as [|n IH]; intros [|a l] x H; simpl in H; try contradiction;
    try exact H.
  right. now apply IH.
Qed.

Lemma window_incl (w : nat) (s : Series) (i : nat) (v : float) :
  In v (Pandas.window w s i) -> In v s.
Proof.
  unfold Pandas.window. intros H.
  apply In_firstn in H. now apply In_skipn in H.
Qed.

Lemma mean_finite_or_na (W : Series) :
  present_finite W -> Pandas.mean W = NaN \/ exists mu, Pandas.mean W = Fin mu.
Proof.
  intros Hpf.
  destruct (dropna_finite W Hpf) as (ws & Hws & _).
  unfold Pandas.mean, Pandas.count, Pandas.sum.
  rewrite Hws, length_map, fold_fadd_Fin.
  destruct (length ws) as [|n]; [now left|].
  right. rewrite fdiv_by_count by lia. eauto.
Qed.

(** On a series of readings no cell is infinite, and the copy that
    [rolling()] works on is the series itself. *)
Lemma kill_inf_readings (s : Series) :
  present_finite s -> map Pandas.kill_inf s = s.
Proof.
  induction s as [|v s IH]; intros Hpf; [reflexivity|].
  cbn [map]. rewrite IH by (eapply present_finite_tail; eassumption).
  destruct (Hpf v (or_introl eq_refl)) as [->|[q ->]]; reflexivity.
Qed.

Lemma rolling_mean_at_readings (w : nat) (s : Series) (i : nat) :
  present_finite s ->
  Pandas.rolling_mean_at w s i =
  if (w <=? i + 1)%nat && forallb notna (Pandas.window w s i)
  then Pandas.mean (Pandas.window w s i)
  else NaN.
Proof.
  intros Hpf. unfold Pandas.rolling_mean_at. cbv zeta.
  now rewrite kill_inf_readings.
Qed.

Lemma window_map (f : float -> float) (w : nat) (s : Series) (i : nat) :
  Pandas.window w (map f s) i = map f (Pandas.window w s i).
Proof. unfold Pandas.window. now rewrite skipn_map, firstn_map. Qed.

Lemma kill_inf_present (l : Series) :
  forallb notna (map Pandas.kill_inf l) = true -> forallb notna l = true.
Proof.
  induction l as [|a l IH]; [reflexivity|].
  cbn [map forallb]. intros H. apply andb_true_iff in H as [Ha Hl].
  rewrite (IH Hl). destruct a; try discriminate; reflexivity.
Qed.

Lemma rolling_mean_at_cases (w : nat) (s : Series) (i : nat) :
  present_finite s ->
  Pandas.rolling_mean_at w s i = NaN \/
  exists mu, Pandas.rolling_mean_at w s i = Fin mu.
Proof.
  intros Hpf. rewrite rolling_mean_at_readings by exact Hpf.
  destruct ((w <=? i + 1)%nat && forallb notna (Pandas.window w s i));
    [|now left].
  apply mean_finite_or_na.
  intros v Hv. apply Hpf. now apply window_incl in Hv.
Qed.

Lemma rolling_mean_finite (w : nat) (s : Series) :
  present_finite s -> present_finite (Pandas.rolling_mean w s).
Proof.
  intros Hpf v Hv. unfold Pandas.rolling_mean in Hv.
  apply in_map_iff in Hv as (i & <- & _).
  destruct (rolling_mean_at_cases w s i Hpf) as [->|(mu & ->)];
    [now left | right; eauto].
Qed.

Lemma window_length (w : nat) (s : Series) (i : nat) :
  (w <= i + 1)%nat -> (i < length s)%nat ->
  length (Pandas.window w s i) = w.
Proof.
  intros Hw Hi. unfold Pandas.window.
  rewrite length_firstn, length_skipn. lia.
Qed.

Lemma filter_all {A} (p : A -> bool) (l : list A) :
  forallb p l = true -> filter p l = l.
Proof.
  induction l as [|a l IH]; intros H; [reflexivity|].
  simpl in *. apply andb_true_iff in H as [Ha Hl].
  rewrite Ha. f_equal. now apply IH.
Qed.

(** The mean of a non-empty window of present readings is finite. *)
Lemma mean_present (W : Series) :
  present_finite W -> forallb notna W = true -> W <> [] ->
  exists mu, Pandas.mean W = Fin mu.
Proof.
  intros Hpf Hall Hne.
  destruct (dropna_finite W Hpf) as (ws & Hws & _).
  unfold Pandas.dropna in Hws. rewrite (filter_all _ _ Hall) in Hws.
  unfold Pandas.mean, Pandas.count, Pandas.sum, Pandas.dropna.
  rewrite (filter_all _ _ Hall), Hws, length_map, fold_fadd_Fin.
  destruct ws as [|x ws]; [simpl in Hws; congruence|].
  cbn [length]. rewrite fdiv_by_count by lia. eauto.
Qed.

(** C3, as the specification states it, fails: on seven valid days the
    seven-day low flow is their mean, 4, above the least value, 1. *)
Lemma Calc7Q_above_minimum :
  (7 <= Pandas.count one_to_seven)%nat /\
  feq (Calc7Q one_to_seven) (Fin 4) /\
  feq (Pandas.min one_to_seven) (Fin 1) /\
  fle (Calc7Q one_to_seven) (Pandas.min one_to_seven) = false.
Proof.
  split; [vm_compute; lia|]. split; [reflexivity|]. split; reflexivity.
Qed.

(** At a complete window of present readings the rolling mean is a
    number. *)
Lemma rolling_mean_at_window (w : nat) (s : Series) (i : nat) :
  present_finite s -> (0 < w)%nat -> valid_window w s i ->
  exists mu, Pandas.rolling_mean_at w s i = Fin mu.
Proof.
  intros Hpf Hw0 (Hi & Hw & Hall).
  rewrite rolling_mean_at_readings by exact Hpf.
  rewrite Hall. replace (w <=? i + 1)%nat with true
    by (symmetry; apply Nat.leb_le; exact Hw).
  cbn [andb]. apply mean_present.
  - intros v Hv. apply Hpf. now apply window_incl in Hv.
  - exact Hall.
  - intros E. pose proof (window_length w s i Hw Hi) as Hlen.
    rewrite E in Hlen. simpl in Hlen. lia.
Qed.

(** A rolling mean that is a number stands at a complete window of
    present readings. *)
Lemma rolling_mean_at_present (w : nat) (s : Series) (i : nat) (mu : Q) :
  present_finite s -> (i < length s)%nat ->
  Pandas.rolling_mean_at w s i = Fin mu -> valid_window w s i.
Proof.
  intros Hpf Hi E. rewrite rolling_mean_at_readings in E by exact Hpf.
  destruct (w <=? i + 1)%nat eqn:Ew; [|discriminate].
  destruct (forallb notna (Pandas.window w s i)) eqn:Ea; [|discriminate].
  apply Nat.leb_le in Ew. repeat split; assumption.
Qed.

(** Without a complete window of present values every rolling mean is
    missing. *)
Lemma Calc7Q_no_window (Qvalues : Series) :
  (forall i, ~ valid_window 7 Qvalues i) -> Calc7Q Qvalues = NaN.
Proof.
  intros Hno. unfold Calc7Q, Pandas.min.
  rewrite all_NaN_dropna; [reflexivity|].
  intros v Hv. unfold Pandas.rolling_mean in Hv.
  apply in_map_iff in Hv as (i & <- & Hi). apply in_seq in Hi.
  unfold Pandas.rolling_mean_at. cbv zeta.
  destruct (7 <=? i + 1)%nat eqn:Ew; [|reflexivity].
  destruct (forallb notna (Pandas.window 7 (map Pandas.kill_inf Qvalues) i))
    eqn:Ea; [|reflexivity].
  exfalso. apply (Hno i). apply Nat.leb_le in Ew.
  rewrite window_map in Ea. apply kill_inf_present in Ea.
  unfold valid_window. repeat split; [lia | exact Ew | exact Ea].
Qed.

(** The seven-day low flow on a period with a complete window: the least
    of the rolling means. *)
Lemma Calc7Q_with_window (Qvalues : Series) :
  present_finite Qvalues ->
  (exists i, valid_window 7 Qvalues i) ->
  exists i,
    valid_window 7 Qvalues i /\
    Calc7Q Qvalues = Pandas.rolling_mean_at 7 Qvalues i /\
    forall j, valid_window 7 Qvalues j ->
      flt (Pandas.rolling_mean_at 7 Qvalues j) (Calc7Q Qvalues) = false.
Proof.
  intros Hpf (i0 & Hv0).
  assert (Hin : forall j, valid_window 7 Qvalues j ->
                  In (Pandas.rolling_mean_at 7 Qvalues j)
                     (Pandas.rolling_mean 7 Qvalues)).
  { intros j (Hj & _). unfold Pandas.rolling_mean.
    apply in_map. apply in_seq. lia. }
  unfold Calc7Q. cbv zeta.
  destruct (min_spec _ (rolling_mean_finite 7 Qvalues Hpf))
    as [[Hna _]|(q & Hq & Hmem & Hlow)].
  { exfalso.
    destruct (rolling_mean_at_window 7 Qvalues i0 Hpf (Nat.lt_0_succ 6) Hv0)
      as (mu & Hmu).
    pose proof (Hna _ (Hin i0 Hv0)) as E. congruence. }
  unfold Pandas.rolling_mean in Hmem.
  apply in_map_iff in Hmem as (i & Hi & Hiin). apply in_seq in Hiin.
  exists i. split; [|split].
  - apply (rolling_mean_at_present 7 Qvalues i q Hpf); [lia | exact Hi].
  - now rewrite Hq, Hi.
  - intros j Hj.
    destruct (rolling_mean_at_window 7 Qvalues j Hpf (Nat.lt_0_succ 6) Hj)
      as (mu & Hmu).
    pose proof (Hin j Hj) as Hjin. rewrite Hmu in Hjin.
    apply Hlow in Hjin. rewrite Hq, Hmu.
    unfold flt, Qltb. apply negb_false_iff. now apply Qle_bool_iff.
Qed.

(** C3, amended.  On a period of readings with seven consecutive valid
    days, the seven-day low flow is the least of the rolling means of the
    complete windows: it is the rolling mean of one of them, and no
    complete window has a rolling mean below it; without seven consecutive
    valid days it is NaN. *)
Theorem Calc7Q_least_window_mean (Qvalues : Series) :
  present_finite Qvalues ->
  ((exists i, valid_window 7 Qvalues i) ->
   exists i,
     valid_window 7 Qvalues i /\
     Calc7Q Qvalues = Pandas.rolling_mean_at 7 Qvalues i /\
     forall j, valid_window 7 Qvalues j ->
       flt (Pandas.rolling_mean_at 7 Qvalues j) (Calc7Q Qvalues) = false) /\
  ((forall i, ~ valid_window 7 Qvalues i) -> Calc7Q Qvalues = NaN).
Proof.
  intros Hpf. split.
  - now apply Calc7Q_with_window.
  - apply Calc7Q_no_window.
Qed.

Lemma Calc7Q_least_window_mean_witness :
  exists i,
    valid_window 7 (map of_Z [1; 2; 3; 4; 5; 6; 7; 8]) i /\
    Calc7Q (map of_Z [1; 2; 3; 4; 5; 6; 7; 8])
    = Pandas.rolling_mean_at 7 (map of_Z [1; 2; 3; 4; 5; 6; 7; 8]) i.
Proof.
  destruct (Calc7Q_least_window_mean (map of_Z [1; 2; 3; 4; 5; 6; 7; 8]))
    as [Hwin _].
  - intros v Hv. right. simpl in Hv.
    repeat (destruct Hv as [<-|Hv]; [eexists; reflexivity|]).
    contradiction.
  - destruct Hwin as (i & Hi & Hq & _).
    + exists 6%nat. unfold valid_window. simpl. repeat split; lia.
    + exists i. split; assumption.
Defined.

(** The example of the specification: on the readings 1 .. 8 the
    seven-day low flow is the mean of 1 .. 7, that is 4. *)
Example Calc7Q_one_to_eight :
  feq (Calc7Q (map of_Z [1; 2; 3; 4; 5; 6; 7; 8])) (Fin 4).
Proof. reflexivity. Qed.

(** Seven valid days that are not consecutive leave no complete window. *)
Example Calc7Q_with_gap :
  Pandas.count (map of_Z [1; 2; 3; 4] ++ [NaN] ++ map of_Z [5; 6; 7]) = 7%nat /\
  Calc7Q (map of_Z [1; 2; 3; 4] ++ [NaN] ++ map of_Z [5; 6; 7]) = NaN.
Proof. split; reflexivity. Qed.

(** The example of the specification for the exceedance count. *)
Example CalcExceed3TimesMedian_example :
  feq (Pandas.median (map of_Z [1; 1; 1; 1; 10])) (Fin 1) /\
  CalcExceed3TimesMedian (map of_Z [1; 1; 1; 1; 10]) = 1%nat.
Proof. split; reflexivity. Qed.

(** *** Periods without a valid observation *)

Lemma count_zero_dropna (s : Series) :
  Pandas.count s = 0%nat -> Pandas.dropna s = [].
Proof. unfold Pandas.count. apply length_zero_iff_nil. Qed.

Lemma count_zero_all_NaN (s : Series) :
  Pandas.count s = 0%nat -> forall v, In v s -> v = NaN.
Proof.
  intros H v Hv. apply count_zero_dropna in H.
  destruct (isna v) eqn:E; [now apply isna_NaN|].
  assert (Hin : In v (Pandas.dropna s)).
  { apply filter_In. split; [exact Hv|]. unfold notna. now rewrite E. }
  rewrite H in Hin. contradiction.
Qed.

Lemma rolling_mean_all_NaN (w : nat) (s : Series) :
  (0 < w)%nat -> Pandas.count s = 0%nat ->
  forall v, In v (Pandas.rolling_mean w s) -> v = NaN.
Proof.
  intros Hw0 Hc v Hv. unfold Pandas.rolling_mean in Hv.
  apply in_map_iff in Hv as (i & <- & Hi). apply in_seq in Hi.
  unfold Pandas.rolling_mean_at. cbv zeta.
  destruct (w <=? i + 1)%nat eqn:Ew; [|reflexivity].
  destruct (forallb notna (Pandas.window w (map Pandas.kill_inf s) i)) eqn:Ea;
    [|reflexivity].
  rewrite window_map in Ea. apply kill_inf_present in Ea.
  exfalso. apply Nat.leb_le in Ew.
  assert (Hlen : length (Pandas.window w s i) = w)
    by (apply window_length; lia).
  destruct (Pandas.window w s i) as [|x W] eqn:EW; [simpl in Hlen; lia|].
  assert (Hx : In x s).
  { apply (window_incl w s i). rewrite EW. now left. }
  apply (count_zero_all_NaN s Hc) in Hx. subst x. discriminate.
Qed.

(** C5, as the specification states it, fails: on a period without a
    valid observation the exceedance count is the integer 0, not NaN. *)
Lemma exceedance_of_missing_period :
  Pandas.count [NaN; NaN] = 0%nat /\
  CalcExceed3TimesMedian [NaN; NaN] = 0%nat /\
  isna (of_nat (CalcExceed3TimesMedian [NaN; NaN])) = false.
Proof. repeat split. Qed.

(** C5, amended.  On a period without a valid observation Tqmean, the
    R-B index, the seven-day low flow, the mean, the peak, the median and
    the coefficient of variation are NaN, returned as values, and the
    exceedance count is 0. *)
Theorem metrics_of_missing_period (Qvalues : Series) :
  Pandas.count Qvalues = 0%nat ->
  CalcTqmean Qvalues = NaN /\
  CalcRBindex Qvalues = NaN /\
  Calc7Q Qvalues = NaN /\
  CalcExceed3TimesMedian Qvalues = 0%nat /\
  Pandas.mean Qvalues = NaN /\
  Pandas.max Qvalues = NaN /\
  Pandas.median Qvalues = NaN /\
  (forall std : Series -> float,
      fmul (fdiv (std Qvalues) (Pandas.mean Qvalues)) (of_Z 100) = NaN).
Proof.
  intros Hc.
  pose proof (count_zero_dropna _ Hc) as Hd.
  pose proof (count_zero_all_NaN _ Hc) as Hna.
  repeat split.
  - unfold CalcTqmean. rewrite count_loc, Hd, Hc. reflexivity.
  - unfold CalcRBindex, Pandas.sum. rewrite Hd. cbn [fold_left].
    destruct Qvalues as [|a [|b t]]; [reflexivity | reflexivity |].
    rewrite pathlength_NaN; [reflexivity | | simpl; lia].
    left. apply Hna. now left.
  - unfold Calc7Q, Pandas.min.
    now rewrite (all_NaN_dropna _ (rolling_mean_all_NaN 7 Qvalues
                                     (Nat.lt_0_succ 6) Hc)).
  - unfold CalcExceed3TimesMedian. rewrite count_loc, Hd. reflexivity.
  - unfold Pandas.mean. now rewrite Hc.
  - unfold Pandas.max. now rewrite Hd.
  - unfold Pandas.median. now rewrite Hd.
  - intros std. unfold Pandas.mean. rewrite Hc.
    now destruct (std Qvalues).
Qed.

Lemma metrics_of_missing_period_witness :
  CalcTqmean [NaN; NaN; NaN] = NaN /\
  CalcExceed3TimesMedian [NaN; NaN; NaN] = 0%nat.
Proof.
  destruct (metrics_of_missing_period [NaN; NaN; NaN])
    as (Ht & _ & _ & He & _).
  - reflexivity.
  - split; assumption.
Defined.

End Metrics.

(* ================================================================== *)
(** ** Where rounding decides *)

Module Rounding.
Import PrimFloat.
#[local] Set Warnings "-inexact-float".


(** On the machine numbers as well, the present values of a constant
    period that are above the computed mean are all of them or none, as the
    mean comes out below the constant or not: the numerator of Tqmean is
    the number of present values, or 0. *)
Lemma above_on_constant_binary64 (c : float) (s : Binary64.Series) :
  Binary64.notna c = true ->
  (forall v, In v s -> Binary64.isna v = true \/ v = c) ->
  Binary64.count (Binary64.loc (fun v => ltb (Binary64.mean s) v) s)
  = if ltb (Binary64.mean s) c then Binary64.count s else 0%nat.
Proof.
  intros Hc. generalize (Binary64.mean s) as m. intros m Hs.
  unfold Binary64.count, Binary64.loc, Binary64.dropna.
  induction s as [|v s IH].
  - now destruct (ltb m c).
  - assert (Hs' : forall x, In x s -> Binary64.isna x = true \/ x = c)
      by (intros x Hx; apply Hs; now right).
    specialize (IH Hs').
    destruct (Hs v (or_introl eq_refl)) as [Hv| ->].
    + assert (Hn : Binary64.notna v = false)
        by (unfold Binary64.notna; now rewrite Hv).
      cbn [filter]. rewrite Hn.
      destruct (ltb m v); cbn [filter]; rewrite ?Hn; exact IH.
    + cbn [filter]. rewrite Hc.
      destruct (ltb m c); cbn [filter length]; rewrite ?Hc;
        cbn [length]; now rewrite ?IH.
Qed.

(** C7, as the specification states it, fails.  On the increasing
    readings 0.1, 0.2, 0.9 the R-B index differs in the last digit from
    the last value less the first over the sum; on the positive readings
    1.7e308, 1e300, 1.7e308 both sums overflow and the R-B index is NaN,
    which is not greater than or equal to 0. *)
Lemma CalcRBindex_rounded :
  Binary64.CalcRBindex [0.1; 0.2; 0.9]%float = 0.66666666666666652%float /\
  div (sub 0.9 0.1) (Binary64.sum [0.1; 0.2; 0.9])%float
    = 0.66666666666666663%float /\
  eqb (Binary64.CalcRBindex [0.1; 0.2; 0.9]%float)
      (div (sub 0.9 0.1) (Binary64.sum [0.1; 0.2; 0.9]))%float = false /\
  Binary64.sum [1.7e308; 1e300; 1.7e308]%float = infinity /\
  Binary64.pathlength [1.7e308; 1e300; 1.7e308]%float = infinity /\
  is_nan (Binary64.CalcRBindex [1.7e308; 1e300; 1.7e308]%float) = true /\
  leb 0%float (Binary64.CalcRBindex [1.7e308; 1e300; 1.7e308]%float) = false.
Proof. vm_compute. repeat split. Qed.

(** Seven readings of 1.46: their sum over 7 comes out below every
    reading, so a mean of seven values can fall below the least of them. *)
Example mean_below_the_readings :
  Binary64.mean [1.46; 1.46; 1.46; 1.46; 1.46; 1.46; 1.46]%float
    = 1.4599999999999997%float /\
  ltb (Binary64.mean [1.46; 1.46; 1.46; 1.46; 1.46; 1.46; 1.46]%float)
      1.46%float = true.
Proof. vm_compute. repeat split. Qed.

(** The R-B index of 0, 0.2, 0, 0.7, 0: twice the sum over the sum comes
    out above 2. *)
Example CalcRBindex_above_two :
  Binary64.CalcRBindex [0; 0.2; 0; 0.7; 0]%float = 2.0000000000000004%float.
Proof. vm_compute. reflexivity. Qed.

End Rounding.

(* ================================================================== *)
(** ** Cleaning and clipping *)

Module Cleaning.

Lemma checked_isna (v : float) :
  isna (checked v) = isna v || flt v (of_Z 0).
Proof.
  unfold checked. destruct (flt v (of_Z 0)) eqn:E.
  - now rewrite orb_true_r.
  - now rewrite orb_false_r.
Qed.

(** Missing after the check: missing before it, or below 0. *)
Lemma isna_sum_checked (l : Series) :
  isna_sum (map checked l) =
  (isna_sum l + length (filter (fun v => flt v (of_Z 0)) l))%nat.
Proof.
  unfold isna_sum.
  induction l as [|v l IH]; [reflexivity|].
  cbn [map filter]. rewrite checked_isna.
  destruct (isna v) eqn:E1, (flt v (of_Z 0)) eqn:E2;
    cbn [orb length]; rewrite IH; try lia.
  apply Metrics.isna_NaN in E1. subst v. discriminate.
Qed.

Lemma ReadData_rows (parsed : DataFrame) :
  fst (ReadData parsed) =
  map (fun r => set_Discharge (checked (Discharge r)) r) parsed.
Proof.
  unfold ReadData. cbn [fst]. apply map_ext. intros [d a s v q].
  unfold checked, set_Discharge. cbn.
  now destruct (flt v (of_Z 0)).
Qed.

(** C10.  [ReadData] keeps the index and every other column, puts NaN in
    place of each discharge below 0 and leaves the other discharges as
    they are; the count it returns is the number of cells that were
    missing already plus the number of cells it has marked. *)
Theorem ReadData_keeps_index (parsed : DataFrame) :
  let DataDF := fst (ReadData parsed) in
  let MissingValues := snd (ReadData parsed) in
  index DataDF = index parsed /\
  length DataDF = length parsed /\
  map agency_cd DataDF = map agency_cd parsed /\
  map site_no DataDF = map site_no parsed /\
  map Quality DataDF = map Quality parsed /\
  Discharge_col DataDF = map checked (Discharge_col parsed) /\
  MissingValues =
    (isna_sum (Discharge_col parsed)
     + length (filter (fun v => flt v (of_Z 0)) (Discharge_col parsed)))%nat.
Proof.
  cbv zeta.
  assert (Hcol : Discharge_col (fst (ReadData parsed)) =
                 map checked (Discharge_col parsed)).
  { rewrite ReadData_rows. unfold Discharge_col. rewrite !map_map.
    apply map_ext. reflexivity. }
  repeat split.
  - rewrite ReadData_rows. unfold index. rewrite map_map.
    apply map_ext. reflexivity.
  - rewrite ReadData_rows. apply length_map.
  - rewrite ReadData_rows, map_map. apply map_ext. reflexivity.
  - rewrite ReadData_rows, map_map. apply map_ext. reflexivity.
  - rewrite ReadData_rows, map_map. apply map_ext. reflexivity.
  - exact Hcol.
  - change (snd (ReadData parsed))
      with (isna_sum (Discharge_col (fst (ReadData parsed)))).
    rewrite Hcol. apply isna_sum_checked.
Qed.

(** Rows of a slice. *)
Lemma slice_In (DataDF : DataFrame) (startDate endDate : Timestamp) (r : Row) :
  In r (slice DataDF startDate endDate) <->
  In r DataDF /\ startDate <= Date r <= endDate.
Proof.
  unfold slice. rewrite filter_In, andb_true_iff, Z.leb_le, Z.leb_le.
  tauto.
Qed.

Lemma filter_none {A} (p : A -> bool) (l : list A) :
  (forall a, In a l -> p a = false) -> filter p l = [].
Proof.
  induction l as [|a l IH]; intros H; [reflexivity|].
  simpl. rewrite (H a (or_introl eq_refl)). apply IH.
  intros x Hx. apply H. now right.
Qed.

Lemma filter_every {A} (p : A -> bool) (l : list A) :
  (forall a, In a l -> p a = true) -> filter p l = l.
Proof.
  induction l as [|a l IH]; intros H; [reflexivity|].
  simpl. rewrite (H a (or_introl eq_refl)). f_equal. apply IH.
  intros x Hx. apply H. now right.
Qed.

Lemma filter_twice {A} (p : A -> bool) (l : list A) :
  filter p (filter p l) = filter p l.
Proof.
  apply filter_every. intros a Ha. now apply filter_In in Ha.
Qed.

(** A table with readings of 2018-2020 only, clipped to the year 2021. *)
Lemma ClipData_empty_range :
  (forall r, In r two_years ->
             ~ days_from_civil 2021 1 1 <= Date r <= days_from_civil 2021 12 31) /\
  ClipData two_years
           (days_from_civil 2021 1 1) (days_from_civil 2021 12 31)
  = ([], 0%nat).
Proof.
  split; [|reflexivity].
  intros r Hr. simpl in Hr.
  repeat (destruct Hr as [<-|Hr]; [vm_compute; intros [H _]; now apply H|]).
  contradiction.
Qed.

(** C4, amended.  [ClipData] on a range without observations returns the
    empty table and a missing count of 0; it raises nothing. *)
Theorem ClipData_no_observation
        (DataDF : DataFrame) (startDate endDate : Timestamp) :
  (forall r, In r DataDF -> ~ startDate <= Date r <= endDate) ->
  ClipData DataDF startDate endDate = ([], 0%nat).
Proof.
  intros H. unfold ClipData, slice.
  rewrite filter_none; [reflexivity|].
  intros r Hr. specialize (H r Hr).
  destruct (startDate <=? Date r) eqn:E1, (Date r <=? endDate) eqn:E2;
    try reflexivity.
  apply Z.leb_le in E1, E2. exfalso. apply H. lia.
Qed.

Lemma ClipData_no_observation_witness :
  ClipData two_years
           (days_from_civil 2021 1 1) (days_from_civil 2021 12 31)
  = ([], 0%nat).
Proof.
  apply ClipData_no_observation.
  intros r Hr. simpl in Hr.
  repeat (destruct Hr as [<-|Hr]; [vm_compute; intros [H _]; now apply H|]).
  contradiction.
Defined.

Lemma ascending_head_lt (d : Timestamp) (l : list Timestamp) :
  ascending (d :: l) -> forall x, In x l -> d < x.
Proof.
  revert d. induction l as [|a l IH]; intros d H x Hx; [contradiction|].
  destruct H as [Hda Hl].
  destruct Hx as [<-|Hx]; [exact Hda|].
  specialize (IH a Hl x Hx). lia.
Qed.

Lemma ascending_le_last (l : list Timestamp) :
  ascending l -> forall x, In x l -> x <= last l 0.
Proof.
  induction l as [|a l IH]; intros H x Hx; [contradiction|].
  destruct l as [|b t].
  - destruct Hx as [<-|[]]. simpl. lia.
  - change (last (a :: b :: t) 0) with (last (b :: t) 0).
    destruct H as [Hab Hl].
    destruct Hx as [<-|Hx]; [|now apply IH].
    specialize (IH Hl b (or_introl eq_refl)). lia.
Qed.

(** C8.  [ClipData] keeps exactly the rows dated within the two bounds,
    both included, in their order; clipping a table to the range from its
    first to its last date returns the table itself, with its count of
    missing values; clipping twice to the same range is clipping once. *)
Theorem ClipData_full_range (DataDF : DataFrame) :
  ascending (index DataDF) ->
  (forall startDate endDate r,
      In r (fst (ClipData DataDF startDate endDate)) <->
      In r DataDF /\ startDate <= Date r <= endDate) /\
  ClipData DataDF (hd 0 (index DataDF)) (last (index DataDF) 0)
    = (DataDF, isna_sum (Discharge_col DataDF)) /\
  (forall startDate endDate,
      ClipData (fst (ClipData DataDF startDate endDate)) startDate endDate
      = ClipData DataDF startDate endDate).
Proof.
  intros Hasc. split; [|split].
  - intros s e r. apply slice_In.
  - unfold ClipData.
    assert (Hs : slice DataDF (hd 0 (index DataDF)) (last (index DataDF) 0)
                 = DataDF).
    { unfold slice. apply filter_every. intros r Hr.
      assert (Hd : In (Date r) (index DataDF)) by (now apply in_map).
      apply andb_true_iff. split; apply Z.leb_le.
      - destruct DataDF as [|r0 rest]; [contradiction|].
        cbn [index map hd] in *.
        destruct Hd as [<-|Hd]; [lia|].
        pose proof (ascending_head_lt _ _ Hasc _ Hd). lia.
      - now apply ascending_le_last. }
    now rewrite Hs.
  - intros s e. unfold ClipData. cbn [fst]. unfold slice.
    now rewrite filter_twice.
Qed.

Lemma ClipData_full_range_witness :
  ClipData two_years
           (days_from_civil 2018 10 1) (days_from_civil 2020 9 30)
  = (two_years, 0%nat).
Proof.
  apply (ClipData_full_range two_years).
  vm_compute. repeat split.
Defined.

End Cleaning.

(* ================================================================== *)
(** ** Monthly averages *)

Module Monthly.

(** C9.  The monthly averages have the columns of the month table and
    twelve rows, indexed 1 .. 12 in this order, whatever the rows of the
    month table; the row of month [m] holds, for each column, the mean of
    the cells of that column in the rows dated in calendar month [m] of
    any year. *)
Theorem GetMonthlyAverages_rows (MoDataDF : Frame Timestamp) :
  let MonthlyAverages := GetMonthlyAverages MoDataDF in
  length (rows MonthlyAverages) = 12%nat /\
  map fst (rows MonthlyAverages) = [1; 2; 3; 4; 5; 6; 7; 8; 9; 10; 11; 12] /\
  columns MonthlyAverages = columns MoDataDF /\
  (forall m, 1 <= m <= 12 ->
     nth (Z.to_nat (m - 1)) (rows MonthlyAverages) (0, [])
       = (m, month_average MoDataDF m) /\
     length (month_average MoDataDF m) = length (columns MoDataDF) /\
     forall j, (j < length (columns MoDataDF))%nat ->
       nth j (month_average MoDataDF m) NaN =
       Pandas.mean
         (map (fun r => nth j (snd r) NaN)
              (filter (fun r => month (fst r) =? m) (rows MoDataDF)))).
Proof.
  cbv zeta. split; [reflexivity|]. split; [reflexivity|].
  split; [reflexivity|].
  intros m Hm. split; [|split].
  - assert (Hcases : m = 1 \/ m = 2 \/ m = 3 \/ m = 4 \/ m = 5 \/ m = 6 \/
                     m = 7 \/ m = 8 \/ m = 9 \/ m = 10 \/ m = 11 \/ m = 12)
      by lia.
    repeat (destruct Hcases as [->|Hcases]; [reflexivity|]).
    subst m. reflexivity.
  - unfold month_average. now rewrite length_map, length_seq.
  - intros j Hj. unfold month_average.
    set (f := fun j => Pandas.mean (column j (rows_of_month m (rows MoDataDF)))).
    rewrite (nth_indep _ NaN (f 0%nat))
      by (now rewrite length_map, length_seq).
    rewrite map_nth, seq_nth by exact Hj. reflexivity.
Qed.

Example GetMonthlyAverages_example :
  length (rows (GetMonthlyAverages monthly_table)) = 12%nat /\
  feq (nth 0 (snd (nth 0 (rows (GetMonthlyAverages monthly_table)) (0, []))) NaN)
      (Fin 3) /\
  nth 1 (rows (GetMonthlyAverages monthly_table)) (0, []) = (2, [NaN]).
Proof. vm_compute. repeat split. Qed.

End Monthly.

(* ================================================================== *)
(** * Further properties of the code *)

(** ** Cleaning and clipping *)

Module CleaningMore.
Import Cleaning.

Lemma checked_not_negative (v : float) : not_negative (checked v).
Proof.
  unfold checked, not_negative.
  destruct v as [| | |q]; cbn; auto.
  unfold Qltb. destruct (Qle_bool (inject_Z 0) q) eqn:E; cbn; auto.
  right. right. exists q. split; [reflexivity|].
  apply Qle_bool_iff in E. exact E.
Qed.

Lemma checked_twice (v : float) : checked (checked v) = checked v.
Proof.
  unfold checked. destruct (flt v (of_Z 0)) eqn:E; [reflexivity|].
  now rewrite E.
Qed.

Lemma ReadData_eq (parsed : DataFrame) :
  ReadData parsed =
  (map (fun r => set_Discharge (checked (Discharge r)) r) parsed,
   isna_sum (map checked (Discharge_col parsed))).
Proof.
  rewrite (surjective_pairing (ReadData parsed)), ReadData_rows.
  f_equal.
  change (snd (ReadData parsed))
    with (isna_sum (Discharge_col (fst (ReadData parsed)))).
  rewrite ReadData_rows. unfold Discharge_col. rewrite !map_map.
  reflexivity.
Qed.

(** X1.  After [ReadData] every discharge is missing or not below 0, and
    running the gross error check on a checked table changes nothing:
    same rows, same count of missing values. *)
Theorem ReadData_idempotent (parsed : DataFrame) :
  (forall r, In r (fst (ReadData parsed)) -> not_negative (Discharge r)) /\
  ReadData (fst (ReadData parsed)) = ReadData parsed.
Proof.
  split.
  - intros r Hr. rewrite ReadData_rows in Hr.
    apply in_map_iff in Hr as (r0 & <- & _). cbn.
    apply checked_not_negative.
  - rewrite (ReadData_eq (fst (ReadData parsed))), (ReadData_eq parsed).
    cbn [fst]. unfold Discharge_col. rewrite !map_map. f_equal.
    + apply map_ext. intros r. cbn. now rewrite checked_twice.
    + f_equal. apply map_ext. intros r. cbn. now rewrite checked_twice.
Qed.

Lemma filter_map_swap {A B} (f : A -> B) (p : B -> bool) (l : list A) :
  filter p (map f l) = map f (filter (fun a => p (f a)) l).
Proof.
  induction l as [|a l IH]; [reflexivity|].
  cbn. destruct (p (f a)); cbn; now rewrite IH.
Qed.

(** X2.  Cleaning and clipping commute: clipping the checked table gives
    the rows and the count of missing values that checking the clipped
    table gives. *)
Theorem ReadData_ClipData_commute
        (parsed : DataFrame) (startDate endDate : Timestamp) :
  ClipData (fst (ReadData parsed)) startDate endDate =
  ReadData (fst (ClipData parsed startDate endDate)).
Proof.
  rewrite (ReadData_eq (fst (ClipData parsed startDate endDate))).
  unfold ClipData. cbn [fst]. rewrite ReadData_rows. unfold slice.
  rewrite filter_map_swap. cbn [Date set_Discharge].
  f_equal. unfold Discharge_col. rewrite !map_map. reflexivity.
Qed.

(** X3.  Clipping a clipped table is clipping once to the common part of
    the two date ranges. *)
Theorem ClipData_ClipData (DataDF : DataFrame) (a b c d : Timestamp) :
  ClipData (fst (ClipData DataDF a b)) c d
  = ClipData DataDF (Z.max a c) (Z.min b d).
Proof.
  unfold ClipData. cbn [fst].
  assert (H : slice (slice DataDF a b) c d
              = slice DataDF (Z.max a c) (Z.min b d)).
  { unfold slice. induction DataDF as [|r l IH]; [reflexivity|].
    cbn [filter].
    destruct ((a <=? Date r) && (Date r <=? b)) eqn:E1;
      cbn [filter];
      destruct ((c <=? Date r) && (Date r <=? d)) eqn:E2;
      destruct ((Z.max a c <=? Date r) && (Date r <=? Z.min b d)) eqn:E3;
      rewrite ?IH; try reflexivity; exfalso;
      rewrite ?andb_true_iff, ?andb_false_iff, ?Z.leb_le, ?Z.leb_gt in *;
      lia. }
  now rewrite H.
Qed.

Lemma ascending_tail (d : Timestamp) (l : list Timestamp) :
  ascending (d :: l) -> ascending l.
Proof. intros [_ H]. exact H. Qed.

Lemma ascending_cons (d : Timestamp) (l : list Timestamp) :
  ascending l -> (forall x, In x l -> d < x) -> ascending (d :: l).
Proof.
  intros Hl Hd. split; [|exact Hl].
  destruct l as [|x l']; [exact I|]. apply Hd. now left.
Qed.

Lemma slice_ascending (DataDF : DataFrame) (a b : Timestamp) :
  ascending (index DataDF) -> ascending (index (slice DataDF a b)).
Proof.
  unfold slice, index.
  induction DataDF as [|r l IH]; intros H; [exact I|].
  cbn [map] in H. pose proof (ascending_tail _ _ H) as Hl.
  cbn [filter]. destruct ((a <=? Date r) && (Date r <=? b)).
  - cbn [map]. apply ascending_cons; [now apply IH|].
    intros x Hx. apply (ascending_head_lt _ _ H).
    apply in_map_iff in Hx as (r' & <- & Hr').
    apply filter_In in Hr' as [Hr' _]. now apply in_map.
  - now apply IH.
Qed.

Lemma isna_sum_filter_le (p : Row -> bool) (l : DataFrame) :
  (isna_sum (Discharge_col (filter p l)) <= isna_sum (Discharge_col l))%nat.
Proof.
  unfold isna_sum, Discharge_col.
  induction l as [|r l IH]; [cbn; lia|].
  cbn [filter map]. destruct (p r); cbn [map filter];
    destruct (isna (Discharge r)); cbn [length]; lia.
Qed.

(** X4.  A clipped table is still in ascending date order, has no more
    rows than the table it comes from, and its count of missing values is
    not above that of the whole table. *)
Theorem ClipData_bounds (DataDF : DataFrame) (startDate endDate : Timestamp) :
  ascending (index DataDF) ->
  ascending (index (fst (ClipData DataDF startDate endDate))) /\
  (length (fst (ClipData DataDF startDate endDate)) <= length DataDF)%nat /\
  (snd (ClipData DataDF startDate endDate)
   <= isna_sum (Discharge_col DataDF))%nat.
Proof.
  intros H. unfold ClipData. cbn [fst snd]. split; [|split].
  - now apply slice_ascending.
  - unfold slice. apply Metrics.filter_length_le.
  - unfold slice. apply isna_sum_filter_le.
Qed.

Lemma ClipData_bounds_witness :
  (snd (ClipData two_years (days_from_civil 2019 1 1)
                 (days_from_civil 2019 12 31))
   <= isna_sum (Discharge_col two_years))%nat.
Proof.
  apply (ClipData_bounds two_years).
  vm_compute. repeat split.
Defined.

End CleaningMore.

(* ================================================================== *)
(** ** The metric functions *)

Module MetricsMore.
Import Metrics.

Lemma dropna_twice (s : Series) :
  Pandas.dropna (Pandas.dropna s) = Pandas.dropna s.
Proof. unfold Pandas.dropna. apply Cleaning.filter_twice. Qed.



Lemma median_dropna (s : Series) :
  Pandas.median (Pandas.dropna s) = Pandas.median s.
Proof. unfold Pandas.median. now rewrite dropna_twice. Qed.


(** The R-B index and the seven-day low flow do depend on them. *)
Example missing_values_not_ignored :
  CalcRBindex [of_Z 1; NaN; of_Z 3] = NaN /\
  feq (CalcRBindex (Pandas.dropna [of_Z 1; NaN; of_Z 3])) (Fin (2 # 4)) /\
  Calc7Q (map of_Z [1; 2; 3; 4] ++ [NaN] ++ map of_Z [5; 6; 7]) = NaN /\
  feq (Calc7Q (Pandas.dropna
                 (map of_Z [1; 2; 3; 4] ++ [NaN] ++ map of_Z [5; 6; 7])))
      (Fin 4).
Proof. repeat split. Qed.

(** X6.  On a gap-free period of values none of which is below 0, the R-B
    index is never below 0; when every value is 0, as on a dry period, and
    on the empty period, it is NaN (0 / 0). *)
Theorem CalcRBindex_not_negative (qs : list Q) :
  all_nonneg qs ->
  flt (CalcRBindex (map Fin qs)) (Fin 0) = false /\
  ((forall q, In q qs -> (q == 0)%Q) -> CalcRBindex (map Fin qs) = NaN).
Proof.
  intros Hpos.
  destruct (CalcRBindex_cases qs Hpos) as [[E Hr]|(HS & r & Hr & Hr0 & _)].
  - rewrite Hr. split; [reflexivity|]. intros _. reflexivity.
  - rewrite Hr. split.
    + unfold flt, Qltb. apply negb_false_iff. now apply Qle_bool_iff.
    + intros Hzero. exfalso.
      assert (E : (Qsum qs == 0)%Q).
      { clear -Hzero. induction qs as [|a qs IH]; [reflexivity|].
        cbn [Qsum]. rewrite (Hzero a (or_introl eq_refl)), IH; [ring|].
        intros q Hq. apply Hzero. now right. }
      lra.
Qed.

Lemma CalcRBindex_not_negative_witness :
  flt (CalcRBindex (map Fin [0; 3; 0; 1]%Q)) (Fin 0) = false /\
  CalcRBindex (map Fin [0; 0; 0]%Q) = NaN.
Proof.
  split.
  - apply (CalcRBindex_not_negative [0; 3; 0; 1]%Q).
    intros q Hq. cbn in Hq.
    destruct Hq as [<-|[<-|[<-|[<-|[]]]]]; discriminate.
  - apply (CalcRBindex_not_negative [0; 0; 0]%Q).
    + intros q Hq. cbn in Hq.
      destruct Hq as [<-|[<-|[<-|[]]]]; discriminate.
    + intros q Hq. cbn in Hq.
      destruct Hq as [<-|[<-|[<-|[]]]]; reflexivity.
Defined.

(** X7.  On fewer than seven values, whatever they are, the seven-day low
    flow is NaN. *)
Theorem Calc7Q_short (Qvalues : Series) :
  (length Qvalues < 7)%nat -> Calc7Q Qvalues = NaN.
Proof.
  intros Hlen. apply Calc7Q_no_window.
  intros i (Hi & Hw & _). lia.
Qed.

Lemma Calc7Q_short_witness : Calc7Q (map of_Z [4; 5; 6]) = NaN.
Proof. apply Calc7Q_short. cbn. lia. Defined.

End MetricsMore.

(* ================================================================== *)
(** ** The median and the exceedance count *)

Module Exceedance.
Import Metrics.

Lemma sort_Fin (qs : list Q) : Pandas.sort (map Fin qs) = map Fin (Qsort qs).
Proof.
  unfold Pandas.sort, Qsort.
  induction qs as [|x qs IH]; [reflexivity|].
  cbn [map fold_right]. rewrite IH. clear IH.
  induction (fold_right Qinsert [] qs) as [|y l IHl]; [reflexivity|].
  cbn [map Pandas.insert Qinsert fle].
  destruct (Qle_bool x y); [reflexivity|].
  cbn [map]. now rewrite IHl.
Qed.

Lemma Qinsert_In (x : Q) (l : list Q) (z : Q) :
  In z (Qinsert x l) <-> z = x \/ In z l.
Proof.
  induction l as [|y l IH]; cbn.
  - intuition.
  - destruct (Qle_bool x y); cbn; [intuition|].
    rewrite IH. intuition.
Qed.

Lemma Qinsert_filter_length (p : Q -> bool) (x : Q) (l : list Q) :
  length (filter p (Qinsert x l)) = length (filter p (x :: l)).
Proof.
  induction l as [|y l IH]; [reflexivity|].
  cbn [Qinsert]. destruct (Qle_bool x y); [reflexivity|].
  cbn [filter] in *. destruct (p y), (p x); cbn [length] in *; lia.
Qed.

Lemma Qsort_filter_length (p : Q -> bool) (l : list Q) :
  length (filter p (Qsort l)) = length (filter p l).
Proof.
  unfold Qsort. induction l as [|x l IH]; [reflexivity|].
  cbn [fold_right]. rewrite Qinsert_filter_length.
  cbn [filter]. destruct (p x); cbn [length]; now rewrite IH.
Qed.

Lemma Qsort_length (l : list Q) : length (Qsort l) = length l.
Proof.
  rewrite <- (Cleaning.filter_every (fun _ => true) (Qsort l)) by reflexivity.
  rewrite Qsort_filter_length.
  now rewrite Cleaning.filter_every by reflexivity.
Qed.

Lemma Qsort_In (l : list Q) (z : Q) : In z (Qsort l) <-> In z l.
Proof.
  unfold Qsort. induction l as [|x l IH]; cbn; [tauto|].
  rewrite Qinsert_In, IH. intuition.
Qed.

Lemma Qinsert_sorted (x : Q) (l : list Q) :
  Qsorted l -> Qsorted (Qinsert x l).
Proof.
  induction l as [|y l IH]; intros Hs.
  - cbn. split; [contradiction | exact I].
  - destruct Hs as [Hy Hl]. cbn [Qinsert].
    destruct (Qle_bool x y) eqn:E.
    + apply Qle_bool_iff in E. split; [|split; assumption].
      intros z [<-|Hz]; [exact E|]. specialize (Hy z Hz). lra.
    + assert (Hlt : (y < x)%Q).
      { apply Qnot_le_lt. intros H. apply Qle_bool_iff in H. congruence. }
      split; [|now apply IH].
      intros z Hz. apply Qinsert_In in Hz as [->|Hz]; [lra | now apply Hy].
Qed.

Lemma Qsort_sorted (l : list Q) : Qsorted (Qsort l).
Proof.
  unfold Qsort. induction l as [|x l IH]; [exact I|].
  cbn [fold_right]. now apply Qinsert_sorted.
Qed.

(** In a sorted list, the values above a bound of the value at position
    [j] all come after position [j]. *)
Lemma sorted_count_above (t : Q) (l : list Q) :
  Qsorted l ->
  forall j, (j < length l)%nat -> (nth j l 0 <= t)%Q ->
  (length (filter (fun x => Qltb t x) l) <= length l - S j)%nat.
Proof.
  induction l as [|a l IH]; intros Hs j Hj Ht; [cbn in Hj; lia|].
  destruct Hs as [Ha Hl].
  assert (Hat : (a <= t)%Q).
  { destruct j as [|j']; [exact Ht|].
    cbn [nth] in Ht. cbn [length] in Hj.
    assert (Hin : In (nth j' l 0%Q) l) by (apply nth_In; lia).
    specialize (Ha _ Hin). lra. }
  cbn [filter]. unfold Qltb at 1.
  replace (Qle_bool a t) with true
    by (symmetry; apply Qle_bool_iff; exact Hat).
  cbn [negb length].
  destruct j as [|j'].
  - pose proof (filter_length_le (fun x => Qltb t x) l). lia.
  - cbn [nth] in Ht. cbn [length] in Hj.
    specialize (IH Hl j' ltac:(lia) Ht). lia.
Qed.

Lemma Qsorted_nth (v : list Q) :
  Qsorted v ->
  forall i j, (i < j)%nat -> (j < length v)%nat ->
  (nth i v 0 <= nth j v 0)%Q.
Proof.
  induction v as [|x v IH]; intros Hs i j Hi Hj; [cbn in Hj; lia|].
  destruct Hs as [Hx Hs].
  destruct j as [|j']; [lia|]. cbn [length] in Hj.
  destruct i as [|i']; cbn [nth].
  - apply Hx. apply nth_In. lia.
  - apply IH; [exact Hs | lia | lia].
Qed.

Lemma nth_map_Fin (qs : list Q) (i : nat) :
  (i < length qs)%nat -> nth i (map Fin qs) NaN = Fin (nth i qs 0%Q).
Proof.
  intros Hi. rewrite (nth_indep _ NaN (Fin 0%Q)) by (now rewrite length_map).
  apply map_nth.
Qed.

(** The median of finite values, none below 0, is a finite value that is
    not below 0 and not below the value at position [(n - 1) / 2] of the
    sorted values. *)
Lemma median_Fin (qs : list Q) :
  qs <> [] -> all_nonneg qs ->
  exists med,
    Pandas.median (map Fin qs) = Fin med /\ (0 <= med)%Q /\
    (nth ((length qs - 1) / 2) (Qsort qs) 0 <= med)%Q.
Proof.
  intros Hne Hpos. unfold Pandas.median.
  rewrite dropna_Fin, sort_Fin, length_map, Qsort_length.
  pose proof (Qsort_sorted qs) as Hsorted.
  pose proof (Qsort_length qs) as Hlen.
  assert (Hn : (0 < length qs)%nat).
  { destruct qs; [congruence | cbn; lia]. }
  assert (Hv : forall i, (i < length qs)%nat -> (0 <= nth i (Qsort qs) 0)%Q).
  { intros i Hi. apply Hpos. apply Qsort_In. apply nth_In. lia. }
  remember (Qsort qs) as v eqn:Ev0.
  remember (length qs) as n eqn:En0.
  clear Ev0 En0 Hne Hpos.
  destruct n as [|n'] eqn:En; [lia|]. rewrite <- En in *.
  destruct (Nat.even n) eqn:Ev.
  - apply Nat.even_spec in Ev. destruct Ev as [h Hh].
    assert (Hh1 : (n / 2 = h)%nat).
    { symmetry. apply Nat.div_unique with (r := 0%nat); lia. }
    assert (Hh2 : ((n - 1) / 2 = h - 1)%nat).
    { symmetry. apply Nat.div_unique with (r := 1%nat); lia. }
    rewrite Hh1, Hh2.
    rewrite !nth_map_Fin by lia.
    set (a := nth (h - 1) v 0%Q). set (b := nth h v 0%Q).
    exists ((a + b) / inject_Z 2)%Q.
    assert (Ha : (0 <= a)%Q) by (apply Hv; lia).
    assert (Hb : (0 <= b)%Q) by (apply Hv; lia).
    assert (Hab : (a <= b)%Q).
    { subst a b. apply Qsorted_nth; [exact Hsorted | lia | lia]. }
    split; [reflexivity|]. split.
    + apply Qle_shift_div_l; [reflexivity | lra].
    + apply Qle_shift_div_l; [reflexivity|].
      change (inject_Z 2) with 2%Q. lra.
  - assert (Ho : Nat.odd n = true) by (unfold Nat.odd; now rewrite Ev).
    apply Nat.odd_spec in Ho. destruct Ho as [h Hh].
    assert (Hh1 : (n / 2 = h)%nat).
    { symmetry. apply Nat.div_unique with (r := 1%nat); lia. }
    assert (Hh2 : ((n - 1) / 2 = h)%nat).
    { symmetry. apply Nat.div_unique with (r := 0%nat); lia. }
    rewrite Hh1, Hh2. rewrite nth_map_Fin by lia.
    exists (nth h v 0%Q). split; [reflexivity|]. split.
    + apply Hv. lia.
    + lra.
Qed.

(** X9.  On a period of readings none of which is below 0, as after the
    gross error check, the days counted above three times the median are
    at most half of the valid days. *)
Theorem exceedance_at_most_half (Qvalues : Series) :
  present_finite Qvalues -> present_nonneg Qvalues ->
  (2 * CalcExceed3TimesMedian Qvalues <= Pandas.count Qvalues)%nat.
Proof.
  intros Hpf Hpos.
  destruct (dropna_finite Qvalues Hpf) as (qs & Hqs & Hin).
  assert (Hqpos : all_nonneg qs).
  { intros q Hq. apply Hpos. now apply Hin. }
  unfold CalcExceed3TimesMedian, Pandas.count at 2.
  rewrite count_loc, <- MetricsMore.median_dropna, Hqs, length_map.
  destruct qs as [|q0 qs']; [cbn; lia|].
  set (qs := q0 :: qs') in *.
  destruct (median_Fin qs ltac:(discriminate) Hqpos) as (med & -> & Hmed & Hnth).
  cbn [fmul of_Z].
  rewrite (CleaningMore.filter_map_swap Fin), length_map.
  change (fun a : Q => fgt (Fin a) (Fin (inject_Z 3 * med)))
    with (fun a : Q => Qltb (inject_Z 3 * med) a).
  rewrite <- (Qsort_filter_length _ qs).
  assert (Hn : (0 < length qs)%nat) by (cbn; lia).
  pose proof (sorted_count_above (inject_Z 3 * med) (Qsort qs)
                (Qsort_sorted qs) ((length qs - 1) / 2)) as Hcount.
  rewrite Qsort_length in Hcount.
  pose proof (Nat.div_mod_eq (length qs - 1) 2) as Hdiv.
  pose proof (Nat.mod_upper_bound (length qs - 1) 2 ltac:(lia)) as Hmod.
  assert (Hj : ((length qs - 1) / 2 < length qs)%nat) by lia.
  assert (Ht : (nth ((length qs - 1) / 2) (Qsort qs) 0 <= inject_Z 3 * med)%Q).
  { change (inject_Z 3) with 3%Q. lra. }
  specialize (Hcount Hj Ht). lia.
Qed.

Lemma exceedance_at_most_half_witness :
  (2 * CalcExceed3TimesMedian (map of_Z [1; 1; 1; 1; 10]%Z)
   <= Pandas.count (map of_Z [1; 1; 1; 1; 10]%Z))%nat.
Proof.
  apply exceedance_at_most_half.
  - intros v Hv. right. cbn in Hv.
    repeat (destruct Hv as [<-|Hv]; [eexists; reflexivity|]).
    contradiction.
  - intros q Hq. cbn in Hq.
    repeat (destruct Hq as [Hq|Hq];
            [apply Fin_inj in Hq; subst q; discriminate|]).
    contradiction.
Defined.

(** Below 0 the bound is lost: with a negative median the threshold is
    under the median. *)
Example exceedance_negative_median :
  CalcExceed3TimesMedian (map of_Z [-4; -3; -2; -1]) = 4%nat.
Proof. reflexivity. Qed.

End Exceedance.

(* ================================================================== *)
(** ** The loop over the water years *)

Module WaterYearMore.
Import CalendarFacts WaterYear Cleaning.

Lemma period_end_cases (s : Timestamp) :
  (month (s + 365) = 10 /\ period_end s = s + 364) \/
  (month (s + 365) <> 10 /\ period_end s = s + 365).
Proof.
  unfold period_end. destruct (month (s + 365) =? 10) eqn:E.
  - left. apply Z.eqb_eq in E. split; [exact E | lia].
  - right. apply Z.eqb_neq in E. split; [exact E | reflexivity].
Qed.

Lemma windows_ends (n : nat) :
  forall s w, In w (windows n s (period_end s)) -> snd w = period_end (fst w).
Proof.
  induction n as [|n IH]; intros s w Hw; [contradiction|].
  cbn [windows] in Hw. destruct Hw as [<-|Hw]; [reflexivity|].
  now apply (IH (period_end s + 1)).
Qed.

Lemma windows_chained (n : nat) :
  forall s e, chained (windows n s e).
Proof.
  induction n as [|n IH]; intros s e; [exact I|].
  cbn [windows]. destruct n as [|n']; [exact I|].
  split; [reflexivity|]. apply IH.
Qed.

(** X10.  Whatever the first date, the date ranges of the water-year loop
    follow one another without a gap or an overlap, and a range holds 365
    days when the day 365 days after its start falls in October and 366
    days otherwise. *)
Theorem windows_partition (n : nat) (startDate : Timestamp) :
  let W := windows n startDate (period_end startDate) in
  length W = n /\
  chained W /\
  (forall w, In w W ->
     (month (fst w + 365) = 10 /\ snd w - fst w + 1 = 365) \/
     (month (fst w + 365) <> 10 /\ snd w - fst w + 1 = 366)) /\
  (forall w, nth_error W 0 = Some w -> fst w = startDate).
Proof.
  cbv zeta. split; [apply windows_length|]. split; [apply windows_chained|].
  split.
  - intros w Hw. apply windows_ends in Hw.
    destruct (period_end_cases (fst w)) as [[Hm He]|[Hm He]];
      [left | right]; (split; [exact Hm | lia]).
  - intros w Hw. destruct n as [|n']; [discriminate|].
    cbn in Hw. now injection Hw as <-.
Qed.

(** A table that starts in June: every range of the loop has 366 days,
    so each starts one day later in the year than the one before, unless a
    February 29 falls in it. *)
Example windows_from_june :
  map (fun w => (civil_from_days (fst w), civil_from_days (snd w)))
      (windows 3 (days_from_civil 1954 6 1)
               (period_end (days_from_civil 1954 6 1)))
  = [((1954, 6, 1), (1955, 6, 1)); ((1955, 6, 2), (1956, 6, 1));
     ((1956, 6, 2), (1957, 6, 2))].
Proof. vm_compute. reflexivity. Qed.

(** Two slices of an ascending table that follow one another make up the
    slice over the two ranges together. *)
Lemma slice_app (DataDF : DataFrame) (a b c : Timestamp) :
  ascending (index DataDF) -> a <= b + 1 -> b <= c ->
  slice DataDF a b ++ slice DataDF (b + 1) c = slice DataDF a c.
Proof.
  intros Hasc Hab Hbc. unfold slice.
  induction DataDF as [|r l IH]; [reflexivity|].
  cbn [index map] in Hasc.
  specialize (IH (CleaningMore.ascending_tail _ _ Hasc)).
  cbn [filter].
  destruct ((a <=? Date r) && (Date r <=? b)) eqn:E1;
    destruct ((b + 1 <=? Date r) && (Date r <=? c)) eqn:E2;
    destruct ((a <=? Date r) && (Date r <=? c)) eqn:E3;
    rewrite ?andb_true_iff, ?andb_false_iff, ?Z.leb_le, ?Z.leb_gt in *;
    try (exfalso; lia).
  - cbn [app]. now rewrite IH.
  - (* the row opens the second slice: no later row is in the first *)
    assert (Hnone : filter (fun r0 => (a <=? Date r0) && (Date r0 <=? b)) l = []).
    { apply filter_none. intros r' Hr'.
      assert (Date r < Date r').
      { apply (ascending_head_lt _ _ Hasc). now apply in_map. }
      apply andb_false_iff. right. apply Z.leb_gt. lia. }
    rewrite Hnone in *. cbn [app] in *. now rewrite IH.
  - exact IH.
Qed.

Lemma last_cons {A} (a : A) (l : list A) (d : A) :
  l <> [] -> last (a :: l) d = last l d.
Proof. destruct l; [congruence | reflexivity]. Qed.

Lemma last_indep {A} (l : list A) (d d' : A) :
  l <> [] -> last l d = last l d'.
Proof.
  induction l as [|a l IH]; intros H; [congruence|].
  destruct l as [|b t]; [reflexivity|].
  rewrite !(last_cons a) by discriminate. apply IH. discriminate.
Qed.

Lemma windows_last_end (n : nat) :
  forall s, s + 364 <= snd (last (windows (S n) s (period_end s)) (s, s)).
Proof.
  induction n as [|n IH]; intros s.
  - cbn. destruct (period_end_cases s) as [[_ ->]|[_ ->]]; lia.
  - change (windows (S (S n)) s (period_end s))
      with ((s, period_end s)
              :: windows (S n) (period_end s + 1)
                         (period_end (period_end s + 1))).
    assert (Hne : windows (S n) (period_end s + 1)
                          (period_end (period_end s + 1)) <> [])
      by discriminate.
    rewrite (last_cons _ _ _ Hne).
    specialize (IH (period_end s + 1)).
    pose proof (last_indep _ (s, s) (period_end s + 1, period_end s + 1) Hne)
      as E.
    unfold Timestamp in *. rewrite E.
    destruct (period_end_cases s) as [[_ He]|[_ He]]; lia.
Qed.

(** X11.  On a table in ascending date order, the yearly slices of the
    loop, put one after the other, are the slice from the first date to the
    end of the last range: no row in between is left out and none is used
    twice. *)
Theorem yearly_slices_cover (DataDF : DataFrame) (n : nat) :
  ascending (index DataDF) ->
  forall startDate,
    concat (map (fun w => slice DataDF (fst w) (snd w))
                (windows (S n) startDate (period_end startDate)))
    = slice DataDF startDate
            (snd (last (windows (S n) startDate (period_end startDate))
                       (startDate, startDate))).
Proof.
  intros Hasc. induction n as [|n IH]; intros s.
  - cbn. apply app_nil_r.
  - change (windows (S (S n)) s (period_end s))
      with ((s, period_end s)
              :: windows (S n) (period_end s + 1)
                         (period_end (period_end s + 1))).
    assert (Hne : windows (S n) (period_end s + 1)
                          (period_end (period_end s + 1)) <> [])
      by discriminate.
    cbn [map concat fst snd]. rewrite IH.
    rewrite (last_cons _ _ _ Hne).
    pose proof (last_indep _ (s, s) (period_end s + 1, period_end s + 1) Hne)
      as E.
    pose proof (windows_last_end n (period_end s + 1)) as Hlast.
    unfold Timestamp in *. rewrite E.
    apply slice_app; [exact Hasc | |];
      destruct (period_end_cases s) as [[_ He]|[_ He]]; lia.
Qed.

Lemma yearly_slices_cover_witness :
  concat (map (fun w => slice two_years (fst w) (snd w))
              (windows 2 (days_from_civil 2018 10 1)
                       (period_end (days_from_civil 2018 10 1))))
  = two_years.
Proof.
  rewrite (yearly_slices_cover two_years 1).
  - vm_compute. reflexivity.
  - vm_compute. repeat split.
Defined.

End WaterYearMore.

(* ================================================================== *)
(** ** The script *)

Module Script.
Import CalendarFacts WaterYear Cleaning.

Lemma ReadData_index (parsed : DataFrame) :
  index (fst (ReadData parsed)) = index parsed.
Proof.
  rewrite ReadData_rows. unfold index. rewrite map_map.
  apply map_ext. reflexivity.
Qed.

Lemma slice_nil_iff (DataDF : DataFrame) (a b : Timestamp) :
  slice DataDF a b = [] <-> (forall r, In r DataDF -> ~ a <= Date r <= b).
Proof.
  split.
  - intros H r Hr Hd.
    assert (Hin : In r (slice DataDF a b)) by (apply slice_In; now split).
    rewrite H in Hin. contradiction.
  - intros H. unfold slice. apply filter_none. intros r Hr.
    specialize (H r Hr).
    destruct (a <=? Date r) eqn:E1, (Date r <=? b) eqn:E2; try reflexivity.
    apply Z.leb_le in E1, E2. exfalso. apply H. lia.
Qed.

Lemma ReadData_dates (parsed : DataFrame) (a b : Timestamp) :
  (forall r, In r (fst (ReadData parsed)) -> ~ a <= Date r <= b) <->
  (forall r, In r parsed -> ~ a <= Date r <= b).
Proof.
  rewrite ReadData_rows. split.
  - intros H r Hr.
    apply (H (set_Discharge (checked (Discharge r)) r)).
    apply in_map_iff. exists r. now split.
  - intros H r Hr. apply in_map_iff in Hr as (r0 & <- & Hr0).
    cbn. now apply H.
Qed.

(** One turn of the loop, on the clipped table. *)
Lemma process_station_eq std skew (parsed : DataFrame) :
  process_station std skew parsed =
  let DataDF := slice (fst (ReadData parsed)) clip_start clip_end in
  match GetAnnualStatistics std skew DataDF with
  | None => None
  | Some WYDataDF =>
      match GetMonthlyStatistics std DataDF with
      | None => None
      | Some MoDataDF =>
          Some (mkStationTables DataDF (isna_sum (Discharge_col DataDF))
                  WYDataDF (GetAnnualAverages WYDataDF)
                  MoDataDF (GetMonthlyAverages MoDataDF))
      end
  end.
Proof.
  unfold process_station, ClipData.
  destruct (ReadData parsed) as [d m]. reflexivity.
Qed.

Lemma process_station_None std skew (parsed : DataFrame) :
  process_station std skew parsed = None <->
  (forall r, In r parsed -> ~ clip_start <= Date r <= clip_end).
Proof.
  rewrite <- ReadData_dates, <- slice_nil_iff, process_station_eq.
  cbv zeta.
  destruct (slice (fst (ReadData parsed)) clip_start clip_end) as [|r0 l].
  - split; reflexivity.
  - split; [|discriminate]. cbn. discriminate.
Qed.

(** X12.  On two station tables in ascending date order, the script ends
    with the [IndexError] of [DataDF.index[0]], before any of its tables
    is put together, exactly when one of the two stations has no reading
    dated from 1969-10-01 to 2019-09-30; the first station alone is enough
    to end it. *)
Theorem main_stops (std skew : Series -> float) (Wildcat Tippe : DataFrame) :
  ascending (index Wildcat) -> ascending (index Tippe) ->
  (main std skew Wildcat Tippe = None <->
   (forall r, In r Wildcat -> ~ clip_start <= Date r <= clip_end) \/
   (forall r, In r Tippe -> ~ clip_start <= Date r <= clip_end)) /\
  (GetAnnualStatistics std skew
     (fst (ClipData (fst (ReadData Wildcat)) clip_start clip_end)) = None ->
   main std skew Wildcat Tippe = None).
Proof.
  intros _ _. split.
  - rewrite <- !(process_station_None std skew).
    unfold main.
    destruct (process_station std skew Wildcat) as [w|];
      destruct (process_station std skew Tippe) as [t|];
      split; intros H; try reflexivity; try discriminate;
      try (now left); try (now right);
      destruct H as [H|H]; discriminate.
  - intros H. unfold main. rewrite process_station_eq. cbv zeta.
    unfold ClipData in H. cbn [fst] in H. now rewrite H.
Qed.

Lemma main_stops_witness :
  main no_stat no_stat two_years
       [reading 2020 2 29 (of_Z 90); reading 2020 9 30 (of_Z 3)] = None.
Proof.
  destruct (main_stops no_stat no_stat two_years
              [reading 2020 2 29 (of_Z 90); reading 2020 9 30 (of_Z 3)])
    as [[_ Hstop] _].
  - vm_compute. repeat split.
  - vm_compute. repeat split.
  - apply Hstop. right. intros r Hr. cbn in Hr.
    destruct Hr as [<-|[<-|[]]]; vm_compute; intros [_ H]; now apply H.
Defined.

Lemma ascending_hd (l : list Timestamp) (a : Timestamp) :
  ascending l -> In a l -> (forall x, In x l -> a <= x) ->
  hd_error l = Some a.
Proof.
  intros Hasc Hin Hlow. destruct l as [|h t]; [contradiction|].
  cbn. f_equal. destruct Hin as [->|Hin]; [reflexivity|].
  pose proof (ascending_head_lt _ _ Hasc _ Hin).
  specialize (Hlow h (or_introl eq_refl)). lia.
Qed.

Lemma last_In {A} (l : list A) (d : A) : l <> [] -> In (last l d) l.
Proof.
  induction l as [|a l IH]; intros H; [congruence|].
  destruct l as [|b t]; [now left|].
  right. apply IH. discriminate.
Qed.

Lemma ascending_last (l : list Timestamp) (b : Timestamp) :
  ascending l -> In b l -> (forall x, In x l -> x <= b) ->
  last l 0 = b.
Proof.
  intros Hasc Hin Hup.
  pose proof (ascending_le_last l Hasc b Hin) as H1.
  assert (Hne : l <> []) by (intros E; rewrite E in Hin; contradiction).
  pose proof (Hup _ (last_In l 0 Hne)) as H2. lia.
Qed.

(** A slice of an ascending table between two dates that it holds starts
    and ends on these dates. *)
Lemma slice_ends (DataDF : DataFrame) (a b : Timestamp) :
  ascending (index DataDF) -> a <= b ->
  has_reading DataDF a -> has_reading DataDF b ->
  hd_error (index (slice DataDF a b)) = Some a /\
  last (index (slice DataDF a b)) 0 = b.
Proof.
  intros Hasc Hab (ra & Hra & Ha) (rb & Hrb & Hb).
  pose proof (CleaningMore.slice_ascending DataDF a b Hasc) as Hs.
  assert (Hdates : forall x, In x (index (slice DataDF a b)) -> a <= x <= b).
  { intros x Hx. apply in_map_iff in Hx as (r & <- & Hr).
    now apply slice_In in Hr. }
  split.
  - apply ascending_hd; [exact Hs | | intros x Hx; now apply Hdates].
    rewrite <- Ha. apply in_map. apply slice_In. split; [exact Hra | lia].
  - apply ascending_last; [exact Hs | | intros x Hx; now apply Hdates].
    rewrite <- Hb. apply in_map. apply slice_In. split; [exact Hrb | lia].
Qed.

(** X13.  For a station table in ascending date order with a reading on
    1969-10-01 and one on 2019-09-30, the script's annual table has 50
    rows, one per water year from 1969-10-01 to 2018-10-01, each computed
    on the checked readings of its water year, and nine annual averages. *)
Theorem station_fifty_water_years
        (std skew : Series -> float) (parsed : DataFrame) :
  ascending (index parsed) ->
  has_reading parsed clip_start -> has_reading parsed clip_end ->
  exists st,
    process_station std skew parsed = Some st /\
    ST_DataDF st = slice (fst (ReadData parsed)) clip_start clip_end /\
    length (ST_WYDataDF st) = 50%nat /\
    ST_WYDataDF st =
      map (fun k => water_year_row std skew (ST_DataDF st) (1969 + Z.of_nat k))
          (seq 0 50) /\
    ST_AnnualAverages st = GetAnnualAverages (ST_WYDataDF st) /\
    length (ST_AnnualAverages st) = 9%nat.
Proof.
  intros Hasc Ha Hb.
  set (DataDF := slice (fst (ReadData parsed)) clip_start clip_end).
  assert (Hasc' : ascending (index (fst (ReadData parsed))))
    by (now rewrite ReadData_index).
  assert (Hread : forall d, has_reading parsed d ->
                            has_reading (fst (ReadData parsed)) d).
  { intros d (r & Hr & Hd). rewrite ReadData_rows.
    exists (set_Discharge (checked (Discharge r)) r). split; [|exact Hd].
    apply in_map_iff. exists r. now split. }
  destruct (slice_ends (fst (ReadData parsed)) clip_start clip_end Hasc'
              ltac:(vm_compute; discriminate) (Hread _ Ha) (Hread _ Hb))
    as [Hhd Hlast].
  fold DataDF in Hhd, Hlast.
  assert (Htable := GetAnnualStatistics_full_years std skew DataDF 1969 50
            ltac:(unfold year_in_range; lia)
            ltac:(unfold year_in_range; cbn; lia) Hhd Hlast).
  rewrite process_station_eq. cbv zeta. fold DataDF. rewrite Htable.
  destruct DataDF as [|r0 l] eqn:EDF; [discriminate|].
  cbn [GetMonthlyStatistics].
  eexists. split; [reflexivity|]. cbn [ST_DataDF ST_WYDataDF ST_AnnualAverages].
  repeat split; reflexivity.
Qed.

Lemma station_fifty_water_years_witness :
  exists st,
    process_station no_stat no_stat
      [reading 1969 10 1 (of_Z 12); reading 1980 5 4 (of_Z (-3));
       reading 2019 9 30 (of_Z 8); reading 2020 1 1 (of_Z 2)] = Some st /\
    length (ST_WYDataDF st) = 50%nat.
Proof.
  destruct (station_fifty_water_years no_stat no_stat
      [reading 1969 10 1 (of_Z 12); reading 1980 5 4 (of_Z (-3));
       reading 2019 9 30 (of_Z 8); reading 2020 1 1 (of_Z 2)])
    as (st & Hst & _ & Hlen & _).
  - vm_compute. repeat split.
  - eexists. split; [left; reflexivity | reflexivity].
  - eexists. split; [right; right; left; reflexivity | reflexivity].
  - exists st. split; assumption.
Defined.

End Script.

(* ================================================================== *)
(** ** The averages *)

Module Averages.
Import Metrics.


(** A water year without data in a table of two: its NaN cells are left
    out of the averages, its exceedance count 0 is not. *)
Example GetAnnualAverages_skips_missing :
  let full := mkWYRow 0 (of_Z 6) (of_Z 9) (of_Z 5) NaN NaN
                      (Fin (1 # 2)) (Fin (1 # 4)) (of_Z 3) 4 in
  let empty := mkWYRow 365 NaN NaN NaN NaN NaN NaN NaN NaN 0 in
  Forall2 feq (GetAnnualAverages [full; empty])
          [of_Z 6; of_Z 9; of_Z 5; NaN; NaN; Fin (1 # 2); Fin (1 # 4);
           of_Z 3; of_Z 2].
Proof. cbv zeta. repeat constructor. Qed.

Lemma monthly_row (MoDataDF : Frame Timestamp) (m : Z) :
  1 <= m <= 12 ->
  nth (Z.to_nat (m - 1)) (rows (GetMonthlyAverages MoDataDF)) (0, [])
  = (m, month_average MoDataDF m).
Proof.
  intros Hm.
  assert (Hcases : m = 1 \/ m = 2 \/ m = 3 \/ m = 4 \/ m = 5 \/ m = 6 \/
                   m = 7 \/ m = 8 \/ m = 9 \/ m = 10 \/ m = 11 \/ m = 12)
    by lia.
  repeat (destruct Hcases as [->|Hcases]; [reflexivity|]).
  subst m. reflexivity.
Qed.

(** X15.  In the monthly averages, the row of a calendar month in which
    the month table has no row is NaN in every column; the row of a month
    in which it has one row only repeats the finite cells of that row. *)
Theorem GetMonthlyAverages_few_rows (MoDataDF : Frame Timestamp) (m : Z) :
  1 <= m <= 12 ->
  (rows_of_month m (rows MoDataDF) = [] ->
   nth (Z.to_nat (m - 1)) (rows (GetMonthlyAverages MoDataDF)) (0, [])
   = (m, repeat NaN (length (columns MoDataDF)))) /\
  (forall d cells,
     rows_of_month m (rows MoDataDF) = [(d, cells)] ->
     forall j q, (j < length (columns MoDataDF))%nat ->
       nth j cells NaN = Fin q ->
       feq (nth j (snd (nth (Z.to_nat (m - 1))
                            (rows (GetMonthlyAverages MoDataDF)) (0, [])))
                NaN)
           (Fin q)).
Proof.
  intros Hm. rewrite (monthly_row MoDataDF m Hm). split.
  - intros Hnone. f_equal. unfold month_average. rewrite Hnone.
    generalize (length (columns MoDataDF)) as n. intros n.
    generalize 0%nat as a.
    induction n as [|n IH]; intros a; [reflexivity|].
    cbn [seq map repeat]. now rewrite IH.
  - intros d cells Hone j q Hj Hcell. cbn [snd].
    unfold month_average. rewrite Hone.
    set (f := fun j => Pandas.mean (column j [(d, cells)])).
    rewrite (nth_indep _ NaN (f 0%nat))
      by (now rewrite length_map, length_seq).
    rewrite map_nth, seq_nth by exact Hj.
    unfold f, column. cbn [map snd Nat.add]. rewrite Hcell.
    cbn. unfold Qeq. cbn. lia.
Qed.

Lemma GetMonthlyAverages_few_rows_witness :
  nth 1 (rows (GetMonthlyAverages monthly_table)) (0, []) = (2, [NaN]).
Proof.
  apply (GetMonthlyAverages_few_rows monthly_table 2).
  - lia.
  - reflexivity.
Defined.

End Averages.

(* ================================================================== *)
(** ** The monthly statistics *)

Module MonthlyStatistics.
Import CalendarFacts Cleaning.

Lemma month_check_all :
  forall_from month_check (12 * 1678) (Z.to_nat (12 * 584)) = true.
Proof. vm_compute. reflexivity. Qed.

Lemma month_facts (i : Z) :
  month_in_range i ->
  civil_from_days (month_start i) = (i / 12, i mod 12 + 1, 1) /\
  month_index (month_start i) = i /\
  month_end (month_start i) = month_start (i + 1) - 1 /\
  month_index (month_start (i + 1) - 1) = i /\
  month_start i < month_start (i + 1).
Proof.
  intros Hi. unfold month_in_range in Hi.
  assert (H : month_check i = true).
  { apply (forall_from_spec _ _ _ month_check_all). lia. }
  unfold month_check in H.
  destruct (civil_from_days (month_start i)) as [[y m] d].
  repeat (apply andb_true_iff in H; destruct H as [H ?]).
  repeat match goal with
         | E : (_ =? _) = true |- _ => apply Z.eqb_eq in E
         | E : (_ <? _) = true |- _ => apply Z.ltb_lt in E
         end.
  subst. repeat split; assumption.
Qed.

Lemma month_start_mono (n : nat) :
  forall a, month_in_range a -> month_in_range (a + Z.of_nat n) ->
            month_start a <= month_start (a + Z.of_nat n).
Proof.
  induction n as [|n IH]; intros a Ha Hb.
  - rewrite Z.add_0_r. lia.
  - assert (Hmid : month_in_range (a + Z.of_nat n))
      by (unfold month_in_range in *; lia).
    specialize (IH a Ha Hmid).
    destruct (month_facts _ Hmid) as (_ & _ & _ & _ & Hlt).
    replace (a + Z.of_nat (S n)) with (a + Z.of_nat n + 1) by lia. lia.
Qed.

Lemma month_start_le (a b : Z) :
  month_in_range a -> month_in_range b -> a <= b ->
  month_start a <= month_start b.
Proof.
  intros Ha Hb Hab.
  replace b with (a + Z.of_nat (Z.to_nat (b - a))) in * by lia.
  now apply month_start_mono.
Qed.

Lemma filter_seq_one (q : nat -> bool) (k n : nat) :
  (k < n)%nat ->
  (forall j, (j < n)%nat -> q j = (j =? k)%nat) ->
  filter q (seq 0 n) = [k].
Proof.
  intros Hk Hq.
  rewrite (filter_ext_in q (fun j => (j =? k)%nat))
    by (intros j Hj; apply in_seq in Hj; apply Hq; lia).
  clear Hq q.
  assert (G : forall a, (a <= k < a + n)%nat ->
                        filter (fun j => (j =? k)%nat) (seq a n) = [k]).
  { clear Hk. induction n as [|n IH]; intros a Ha; [lia|].
    cbn [seq filter]. destruct (a =? k)%nat eqn:E.
    - apply Nat.eqb_eq in E. subst a. f_equal.
      apply filter_none. intros j Hj. apply in_seq in Hj.
      apply Nat.eqb_neq. lia.
    - apply Nat.eqb_neq in E. apply IH. lia. }
  apply G. lia.
Qed.

Lemma rows_in_month_one (i0 : Z) (n k : nat) (cells : nat -> list float) :
  month_in_range i0 -> month_in_range (i0 + Z.of_nat n) -> (k < n)%nat ->
  rows_in_month (i0 + Z.of_nat k) (month_end_rows i0 n cells)
  = [(month_start (i0 + Z.of_nat k + 1) - 1, cells k)].
Proof.
  intros H0 Hn Hk. unfold rows_in_month, month_end_rows.
  rewrite CleaningMore.filter_map_swap. cbn [fst].
  rewrite (filter_seq_one _ k n Hk); [reflexivity|].
  intros j Hj.
  assert (Rk : month_in_range (i0 + Z.of_nat k))
    by (unfold month_in_range in *; lia).
  assert (Rj : month_in_range (i0 + Z.of_nat j))
    by (unfold month_in_range in *; lia).
  assert (Rk1 : month_in_range (i0 + Z.of_nat k + 1))
    by (unfold month_in_range in *; lia).
  assert (Rj1 : month_in_range (i0 + Z.of_nat j + 1))
    by (unfold month_in_range in *; lia).
  destruct (month_facts _ Rk) as (_ & _ & _ & _ & Hklt).
  destruct (month_facts _ Rj) as (_ & _ & _ & _ & Hjlt).
  destruct (Nat.eqb_spec j k) as [->|Hne].
  - apply andb_true_iff. split; [apply Z.leb_le | apply Z.ltb_lt]; lia.
  - apply andb_false_iff.
    destruct (Nat.lt_ge_cases j k) as [Hlt|Hge].
    + left. apply Z.leb_gt.
      pose proof (month_start_le (i0 + Z.of_nat j + 1) (i0 + Z.of_nat k)
                    Rj1 Rk ltac:(lia)). lia.
    + right. apply Z.ltb_ge.
      pose proof (month_start_le (i0 + Z.of_nat k + 1) (i0 + Z.of_nat j)
                    Rk1 Rj ltac:(lia)). lia.
Qed.

(** The last step of [GetMonthlyStatistics] on month-end rows of four
    cells: the same months, labelled by their first day, each cell
    summed. *)
Lemma resample_MS_sum_rows
      (cols : list string) (i0 : Z) (n : nat) (cells : nat -> list float) :
  month_in_range i0 -> month_in_range (i0 + Z.of_nat n) ->
  length cols = 4%nat ->
  (forall k, length (cells k) = 4%nat) ->
  rows (resample_MS_sum (mkFrame cols (month_end_rows i0 n cells)))
  = map (fun k => (month_start (i0 + Z.of_nat k), map summed (cells k)))
        (seq 0 n).
Proof.
  intros H0 Hn Hcols Hcells.
  unfold resample_MS_sum. cbn [rows columns].
  destruct n as [|n'] eqn:En; [reflexivity|]. rewrite <- En in *.
  assert (Hne : month_end_rows i0 n cells <> []).
  { unfold month_end_rows. rewrite En. cbn. discriminate. }
  destruct (month_end_rows i0 n cells) as [|r0 l] eqn:ER; [congruence|].
  rewrite <- ER.
  (* the month of the first label *)
  assert (Hr0 : fst r0 = month_start (i0 + 1) - 1).
  { unfold month_end_rows in ER. rewrite En in ER. cbn [seq map] in ER.
    injection ER as <- _. cbn [fst]. now rewrite Z.add_0_r. }
  (* the month of the last label *)
  assert (Hlast : fst (last (month_end_rows i0 n cells) r0)
                  = month_start (i0 + Z.of_nat n) - 1).
  { unfold month_end_rows. rewrite En, seq_S, map_app. cbn [map].
    rewrite last_last. cbn [fst Nat.add]. f_equal. f_equal. lia. }
  rewrite Hr0, Hlast.
  destruct (month_facts i0 H0) as (_ & _ & _ & E0 & _).
  assert (Rn : month_in_range (i0 + Z.of_nat n - 1))
    by (unfold month_in_range in *; lia).
  destruct (month_facts _ Rn) as (_ & _ & _ & E1 & _).
  replace (i0 + Z.of_nat n - 1 + 1) with (i0 + Z.of_nat n) in E1 by lia.
  rewrite E0, E1.
  replace (i0 + Z.of_nat n - 1 - i0 + 1) with (Z.of_nat n) by lia.
  rewrite Nat2Z.id.
  apply map_ext_in. intros k Hk. apply in_seq in Hk. cbv zeta. f_equal.
  rewrite (rows_in_month_one i0 n k cells H0 Hn) by lia.
  rewrite Hcols. specialize (Hcells k).
  destruct (cells k) as [|c1 [|c2 [|c3 [|c4 [|c5 t]]]]]; try discriminate.
  reflexivity.
Qed.

Lemma month_windows_length (n : nat) :
  forall s e, length (month_windows n s e) = n.
Proof. induction n; intros; cbn; [reflexivity | now rewrite IHn]. Qed.

Lemma monthly_loop_length (DataDF : DataFrame) (n : nat) :
  forall s e, length (monthly_loop DataDF n s e) = n.
Proof. induction n; intros; cbn; [reflexivity | now rewrite IHn]. Qed.

(** The monthly loop computes its entries on the slices of the visited
    ranges. *)
Lemma monthly_loop_windows (DataDF : DataFrame) (n : nat) :
  forall s e,
    monthly_loop DataDF n s e =
    map (fun w : Timestamp * Timestamp =>
           let q := Discharge_col (slice DataDF (fst w) (snd w)) in
           (CalcTqmean q, CalcRBindex q))
        (month_windows n s e).
Proof.
  induction n as [|n IH]; intros s e; cbn; [reflexivity|].
  now rewrite IH.
Qed.

Lemma combine_map_nth {A B} (f : nat -> A) (d : B) (n : nat) :
  forall (a : nat) (l : list B), length l = n ->
    combine (map f (seq a n)) l
    = map (fun k => (f k, nth (k - a) l d)) (seq a n).
Proof.
  induction n as [|n IH]; intros a l Hl; [reflexivity|].
  destruct l as [|b l]; [discriminate|].
  cbn [seq map combine]. f_equal.
  - now rewrite Nat.sub_diag.
  - rewrite (IH (S a) l) by (now injection Hl).
    apply map_ext_in. intros k Hk. apply in_seq in Hk.
    replace (k - a)%nat with (S (k - S a)) by lia. reflexivity.
Qed.

Lemma resample_M_months (DataDF : DataFrame) (d0 : Timestamp) :
  hd_error (index DataDF) = Some d0 ->
  month_index d0 <= month_index (last (index DataDF) 0) ->
  resample_M DataDF =
  map (fun k => (month_start (month_index d0 + Z.of_nat k + 1) - 1,
                 bin_M DataDF (month_index d0 + Z.of_nat k)))
      (seq 0 (Z.to_nat (month_index (last (index DataDF) 0)
                        - month_index d0 + 1))).
Proof.
  intros Hhd Hle.
  destruct DataDF as [|r0 rest]; [discriminate|].
  cbn [index map hd_error] in Hhd. injection Hhd as Hhd.
  unfold resample_M.
  rewrite (WaterYear.last_index (r0 :: rest) r0) by discriminate.
  now rewrite Hhd.
Qed.

Lemma summed_notna (v : float) : isna (summed v) = false.
Proof. destruct v; reflexivity. Qed.

Lemma summed_cases (v : float) :
  (v = NaN /\ summed v = Fin 0) \/ (v <> NaN /\ feq (summed v) v).
Proof.
  destruct v as [| | |q].
  - left. split; reflexivity.
  - right. split; [discriminate | exact I].
  - right. split; [discriminate | exact I].
  - right. split; [discriminate|].
    change (0 + q == q)%Q. ring.
Qed.

(** The monthly table of a table that starts on [d0], row by row. *)
Lemma GetMonthlyStatistics_rows
      (std : Series -> float) (DataDF : DataFrame) (d0 : Timestamp) :
  hd_error (index DataDF) = Some d0 ->
  month_in_range (month_index d0) ->
  month_in_range (month_index (last (index DataDF) 0) + 1) ->
  month_index d0 <= month_index (last (index DataDF) 0) ->
  let i0 := month_index d0 in
  let n := Z.to_nat (month_index (last (index DataDF) 0) - i0 + 1) in
  let W := month_windows n d0 (month_end d0) in
  rows (monthly_frame std DataDF d0)
    = month_end_rows i0 n (monthly_cells std DataDF i0 W) /\
  GetMonthlyStatistics std DataDF
    = Some (mkFrame ["Mean Flow"; "Coeff Var"; "Tqmean"; "R-B Index"]%string
              (map (fun k => (month_start (i0 + Z.of_nat k),
                              map summed (monthly_cells std DataDF i0 W k)))
                   (seq 0 n))).
Proof.
  intros Hhd H0 H1 Hle i0 n W.
  set (i1 := month_index (last (index DataDF) 0)) in *.
  assert (Hn : i0 + Z.of_nat n = i1 + 1) by (subst n i0; lia).
  pose proof (resample_M_months DataDF d0 Hhd Hle) as HM.
  fold i0 i1 in HM. fold n in HM.
  set (G := fun w : Timestamp * Timestamp =>
              let q := Discharge_col (slice DataDF (fst w) (snd w)) in
              (CalcTqmean q, CalcRBindex q)).
  assert (Hframe : rows (monthly_frame std DataDF d0)
                   = month_end_rows i0 n (monthly_cells std DataDF i0 W)).
  { unfold monthly_frame. cbn [rows]. rewrite HM, length_map, length_seq.
    rewrite monthly_loop_windows. fold W. fold G.
    rewrite (combine_map_nth _ (G (0, 0)) n 0 (map G W))
      by (rewrite length_map; apply month_windows_length).
    rewrite map_map. unfold month_end_rows.
    apply map_ext. intros k. rewrite Nat.sub_0_r, (map_nth G).
    reflexivity. }
  split; [exact Hframe|].
  destruct DataDF as [|r0 rest] eqn:EDF; [discriminate|].
  assert (Hd0 : Date r0 = d0) by (cbn in Hhd; now injection Hhd).
  cbn [GetMonthlyStatistics]. rewrite Hd0. f_equal.
  assert (E : monthly_frame std (r0 :: rest) d0
              = mkFrame ["Mean Flow"; "Coeff Var"; "Tqmean"; "R-B Index"]%string
                        (month_end_rows i0 n (monthly_cells std (r0 :: rest) i0 W))).
  { rewrite <- Hframe. reflexivity. }
  rewrite E.
  transitivity
    (mkFrame
       (columns (resample_MS_sum
                   (mkFrame ["Mean Flow"; "Coeff Var"; "Tqmean"; "R-B Index"]%string
                      (month_end_rows i0 n (monthly_cells std (r0 :: rest) i0 W)))))
       (rows (resample_MS_sum
                (mkFrame ["Mean Flow"; "Coeff Var"; "Tqmean"; "R-B Index"]%string
                   (month_end_rows i0 n (monthly_cells std (r0 :: rest) i0 W)))))).
  { now destruct (resample_MS_sum _). }
  rewrite resample_MS_sum_rows;
    [reflexivity | exact H0 | now rewrite Hn | reflexivity
     | intros k; reflexivity].
Qed.

(** X17.  For a table in ascending date order, whatever the day it starts
    on, the monthly table has one row for each calendar month from that of the first reading to that of
    the last, labelled by the first day of the month; its last step sums
    each cell of the table of statistics with the missing ones skipped, so
    that a statistic that is NaN for a month comes out as 0 and no cell of
    the monthly table is NaN. *)
Theorem GetMonthlyStatistics_no_missing
        (std : Series -> float) (DataDF : DataFrame) (d0 : Timestamp) :
  ascending (index DataDF) ->
  hd_error (index DataDF) = Some d0 ->
  month_in_range (month_index d0) ->
  month_in_range (month_index (last (index DataDF) 0) + 1) ->
  month_index d0 <= month_index (last (index DataDF) 0) ->
  let n := Z.to_nat (month_index (last (index DataDF) 0) - month_index d0 + 1) in
  exists MoDataDF,
    GetMonthlyStatistics std DataDF = Some MoDataDF /\
    map fst (rows MoDataDF)
      = map (fun k => month_start (month_index d0 + Z.of_nat k)) (seq 0 n) /\
    map snd (rows MoDataDF)
      = map (fun r => map summed (snd r)) (rows (monthly_frame std DataDF d0)) /\
    (forall r v, In r (rows MoDataDF) -> In v (snd r) -> isna v = false) /\
    (forall v, (v = NaN /\ summed v = Fin 0) \/ (v <> NaN /\ feq (summed v) v)).
Proof.
  intros _ Hhd H0 H1 Hle n.
  destruct (GetMonthlyStatistics_rows std DataDF d0 Hhd H0 H1 Hle)
    as [Hframe Hout].
  cbv zeta in Hframe, Hout. fold n in Hframe, Hout.
  eexists. split; [exact Hout|]. cbn [rows].
  split; [|split; [|split]].
  - now rewrite map_map.
  - rewrite Hframe. unfold month_end_rows. now rewrite !map_map.
  - intros r v Hr Hv. apply in_map_iff in Hr as (k & <- & _).
    cbn [snd] in Hv. apply in_map_iff in Hv as (x & <- & _).
    apply summed_notna.
  - apply summed_cases.
Qed.

Lemma GetMonthlyStatistics_no_missing_witness :
  exists MoDataDF,
    GetMonthlyStatistics no_stat three_months = Some MoDataDF /\
    map fst (rows MoDataDF)
      = [days_from_civil 2019 1 1; days_from_civil 2019 2 1;
         days_from_civil 2019 3 1].
Proof.
  destruct (GetMonthlyStatistics_no_missing no_stat three_months
              (days_from_civil 2019 1 1))
    as (out & Hout & Hlabels & _).
  - vm_compute. repeat split.
  - reflexivity.
  - vm_compute. split; discriminate.
  - vm_compute. split; discriminate.
  - vm_compute. discriminate.
  - exists out. split; [exact Hout|]. rewrite Hlabels. reflexivity.
Defined.

(** February 2019 has no valid reading: its mean, Tqmean and R-B index are
    NaN in the table of statistics and 0 in the monthly table. *)
Example GetMonthlyStatistics_three_months :
  map snd (rows (monthly_frame no_stat three_months (days_from_civil 2019 1 1)))
  = [[Fin (4 # 2); NaN; Fin (1 # 2); Fin (2 # 4)];
     [NaN; NaN; NaN; NaN];
     [Fin (12 # 2); NaN; Fin (1 # 2); Fin (2 # 12)]] /\
  option_map (fun f => map snd (rows f))
             (GetMonthlyStatistics no_stat three_months)
  = Some [[Fin (4 # 2); Fin 0; Fin (1 # 2); Fin (2 # 4)];
          [Fin 0; Fin 0; Fin 0; Fin 0];
          [Fin (12 # 2); Fin 0; Fin (1 # 2); Fin (2 # 12)]].
Proof. vm_compute. split; reflexivity. Qed.

(** Started on the first day of a month, the monthly loop visits the
    calendar months one by one. *)
Lemma month_windows_calendar (n : nat) :
  forall i0, month_in_range i0 -> month_in_range (i0 + Z.of_nat n) ->
    month_windows n (month_start i0) (month_start (i0 + 1) - 1) =
    map (fun k => (month_start (i0 + Z.of_nat k),
                   month_start (i0 + Z.of_nat k + 1) - 1))
        (seq 0 n).
Proof.
  induction n as [|n IH]; intros i0 H0 Hn; [reflexivity|].
  cbn [month_windows seq map]. f_equal.
  - now rewrite Z.add_0_r.
  - destruct n as [|n']; [reflexivity|].
    assert (H1 : month_in_range (i0 + 1))
      by (unfold month_in_range in *; lia).
    destruct (month_facts _ H1) as (_ & _ & He & _).
    replace (month_start (i0 + 1) - 1 + 1) with (month_start (i0 + 1)) by lia.
    rewrite He.
    rewrite (IH (i0 + 1)) by (unfold month_in_range in *; lia).
    rewrite <- seq_shift, map_map.
    apply map_ext. intros k.
    replace (i0 + 1 + Z.of_nat k) with (i0 + Z.of_nat (S k)) by lia.
    reflexivity.
Qed.

(** The slice from the first to the last day of a month holds the cells of
    the bin of that month. *)
Lemma slice_month (DataDF : DataFrame) (i : Z) :
  Discharge_col (slice DataDF (month_start i) (month_start (i + 1) - 1))
  = bin_M DataDF i.
Proof.
  unfold bin_M, slice. f_equal. apply filter_ext. intros r. f_equal.
  destruct (Date r <=? month_start (i + 1) - 1) eqn:E1,
           (Date r <? month_start (i + 1)) eqn:E2;
    try reflexivity;
    [apply Z.leb_le in E1; apply Z.ltb_ge in E2
    |apply Z.leb_gt in E1; apply Z.ltb_lt in E2]; lia.
Qed.

(** The monthly table of a table that starts on the first day of a month,
    row by row. *)
Lemma GetMonthlyStatistics_month_rows
      (std : Series -> float) (DataDF : DataFrame) (i0 : Z) :
  hd_error (index DataDF) = Some (month_start i0) ->
  month_in_range i0 ->
  month_in_range (month_index (last (index DataDF) 0) + 1) ->
  i0 <= month_index (last (index DataDF) 0) ->
  let n := Z.to_nat (month_index (last (index DataDF) 0) - i0 + 1) in
  GetMonthlyStatistics std DataDF
    = Some (mkFrame ["Mean Flow"; "Coeff Var"; "Tqmean"; "R-B Index"]%string
              (map (fun k => month_row std DataDF (i0 + Z.of_nat k))
                   (seq 0 n))).
Proof.
  intros Hhd H0 H1 Hle n.
  destruct (month_facts i0 H0) as (_ & Hidx & He & _).
  assert (Hn : month_in_range (i0 + Z.of_nat n))
    by (subst n; unfold month_in_range in *; lia).
  assert (HW : month_windows n (month_start i0) (month_end (month_start i0))
               = map (fun k => (month_start (i0 + Z.of_nat k),
                                month_start (i0 + Z.of_nat k + 1) - 1))
                     (seq 0 n)).
  { rewrite He. now apply month_windows_calendar. }
  destruct (GetMonthlyStatistics_rows std DataDF (month_start i0) Hhd)
    as [_ Hout]; rewrite ?Hidx; try assumption.
  cbv zeta in Hout. rewrite Hidx in Hout. fold n in Hout.
  rewrite Hout. f_equal. f_equal.
  apply map_ext_in. intros k Hk. apply in_seq in Hk.
  unfold month_row, monthly_cells. cbv zeta. rewrite HW.
  set (f := fun k => (month_start (i0 + Z.of_nat k),
                      month_start (i0 + Z.of_nat k + 1) - 1)).
  rewrite (nth_indep _ (0, 0) (f 0%nat))
    by (rewrite length_map, length_seq; lia).
  rewrite (map_nth f), seq_nth by lia.
  unfold f. cbn [fst snd Nat.add]. now rewrite slice_month.
Qed.

(** X16.  For a table in ascending date order that starts on the first
    day of a month, the ranges
    of the monthly loop are the calendar months, from the first day to the
    last, and the monthly table has one row per calendar month up to that
    of the last reading, labelled by the first day of the month and
    computed on the readings of that month: mean, coefficient of
    variation, Tqmean and R-B index, each summed. *)
Theorem GetMonthlyStatistics_calendar_months
        (std : Series -> float) (DataDF : DataFrame) (i0 : Z) :
  ascending (index DataDF) ->
  hd_error (index DataDF) = Some (month_start i0) ->
  month_in_range i0 ->
  month_in_range (month_index (last (index DataDF) 0) + 1) ->
  i0 <= month_index (last (index DataDF) 0) ->
  let n := Z.to_nat (month_index (last (index DataDF) 0) - i0 + 1) in
  month_windows n (month_start i0) (month_end (month_start i0))
    = map (fun k => (month_start (i0 + Z.of_nat k),
                     month_start (i0 + Z.of_nat k + 1) - 1))
          (seq 0 n) /\
  GetMonthlyStatistics std DataDF
    = Some (mkFrame ["Mean Flow"; "Coeff Var"; "Tqmean"; "R-B Index"]%string
              (map (fun k => month_row std DataDF (i0 + Z.of_nat k))
                   (seq 0 n))).
Proof.
  intros _ Hhd H0 H1 Hle n. split.
  - destruct (month_facts i0 H0) as (_ & _ & He & _).
    rewrite He. apply month_windows_calendar; [exact H0|].
    subst n; unfold month_in_range in *; lia.
  - now apply GetMonthlyStatistics_month_rows.
Qed.

Lemma GetMonthlyStatistics_calendar_months_witness :
  GetMonthlyStatistics no_stat three_months
  = Some (mkFrame ["Mean Flow"; "Coeff Var"; "Tqmean"; "R-B Index"]%string
            [month_row no_stat three_months (12 * 2019);
             month_row no_stat three_months (12 * 2019 + 1);
             month_row no_stat three_months (12 * 2019 + 2)]).
Proof.
  destruct (GetMonthlyStatistics_calendar_months no_stat three_months
              (12 * 2019)) as [_ Hout].
  - vm_compute. repeat split.
  - reflexivity.
  - vm_compute. split; discriminate.
  - vm_compute. split; discriminate.
  - vm_compute. discriminate.
  - rewrite Hout. reflexivity.
Defined.

(** A table that starts on the 31st: the ranges of the loop are no
    calendar months, and the Tqmean and R-B index of a row are those of
    other days than its mean. *)
Example month_windows_from_the_31st :
  map (fun w => (civil_from_days (fst w), civil_from_days (snd w)))
      (month_windows 3 (days_from_civil 2019 1 31)
                     (month_end (days_from_civil 2019 1 31)))
  = [((2019, 1, 31), (2019, 2, 27)); ((2019, 2, 28), (2019, 3, 27));
     ((2019, 3, 28), (2019, 4, 27))].
Proof. vm_compute. reflexivity. Qed.

End MonthlyStatistics.

(* ================================================================== *)
(** ** The tables of the script *)

Module Tables.
Import CalendarFacts WaterYear Cleaning MonthlyStatistics.



(** A table from June 2018 to November 2019: three rows; the mean of the
    first row is that of the readings before 2018-10-01, its Tqmean that
    of the readings from 2018-06-01 to 2019-06-01. *)
Example GetAnnualStatistics_from_june :
  option_map
    (map (fun r => (civil_from_days (WY_label r), Mean_Flow r, Tqmean r)))
    (GetAnnualStatistics no_stat no_stat
       [reading 2018 6 1 (of_Z 4); reading 2019 1 1 (of_Z 6);
        reading 2019 11 5 (of_Z 2)])
  = Some [((2017, 10, 1), Fin (4 # 1), Fin (1 # 2));
          ((2018, 10, 1), Fin (6 # 1), Fin (0 # 1));
          ((2019, 10, 1), Fin (2 # 1), NaN)].
Proof. vm_compute. reflexivity. Qed.

(** X19.  For a station table in ascending date order with a reading on
    1969-10-01 and one on 2019-09-30, the script's monthly table has 600
    rows, one per calendar month from October 1969 to September 2019, each
    computed on the checked readings of its month, and the monthly
    averages are taken over it. *)
Theorem station_six_hundred_months
        (std skew : Series -> float) (parsed : DataFrame) :
  ascending (index parsed) ->
  has_reading parsed clip_start -> has_reading parsed clip_end ->
  exists st,
    process_station std skew parsed = Some st /\
    ST_MoDataDF st
      = mkFrame ["Mean Flow"; "Coeff Var"; "Tqmean"; "R-B Index"]%string
          (map (fun k => month_row std (ST_DataDF st)
                                   (12 * 1969 + 9 + Z.of_nat k))
               (seq 0 600)) /\
    length (rows (ST_MoDataDF st)) = 600%nat /\
    ST_MonthlyAverages st = GetMonthlyAverages (ST_MoDataDF st).
Proof.
  intros Hasc Ha Hb.
  set (DataDF := slice (fst (ReadData parsed)) clip_start clip_end).
  assert (Hasc' : ascending (index (fst (ReadData parsed))))
    by (now rewrite Script.ReadData_index).
  assert (Hread : forall d, has_reading parsed d ->
                            has_reading (fst (ReadData parsed)) d).
  { intros d (r & Hr & Hd). rewrite ReadData_rows.
    exists (set_Discharge (checked (Discharge r)) r). split; [|exact Hd].
    apply in_map_iff. exists r. now split. }
  destruct (Script.slice_ends (fst (ReadData parsed)) clip_start clip_end
              Hasc' ltac:(vm_compute; discriminate)
              (Hread _ Ha) (Hread _ Hb))
    as [Hhd Hlast].
  fold DataDF in Hhd, Hlast.
  assert (Hidx : month_index clip_end = 12 * 2019 + 8)
    by (vm_compute; reflexivity).
  assert (Hmo := GetMonthlyStatistics_month_rows std DataDF
                   (12 * 1969 + 9) Hhd).
  rewrite Hlast, Hidx in Hmo.
  specialize (Hmo ltac:(unfold month_in_range; lia)
                  ltac:(unfold month_in_range; lia) ltac:(lia)).
  cbv zeta in Hmo.
  change (Z.to_nat (12 * 2019 + 8 - (12 * 1969 + 9) + 1)) with 600%nat in Hmo.
  assert (Htable := GetAnnualStatistics_full_years std skew DataDF 1969 50
            ltac:(unfold year_in_range; lia)
            ltac:(unfold year_in_range; cbn; lia) Hhd Hlast).
  rewrite Script.process_station_eq. cbv zeta. fold DataDF.
  rewrite Htable, Hmo.
  eexists. split; [reflexivity|]. cbn [ST_MoDataDF ST_DataDF ST_MonthlyAverages].
  split; [reflexivity|]. split; [|reflexivity].
  cbn [rows]. now rewrite length_map, length_seq.
Qed.

Lemma station_six_hundred_months_witness :
  exists st,
    process_station no_stat no_stat
      [reading 1969 10 1 (of_Z 12); reading 1980 5 4 (of_Z (-3));
       reading 2019 9 30 (of_Z 8); reading 2020 1 1 (of_Z 2)] = Some st /\
    length (rows (ST_MoDataDF st)) = 600%nat.
Proof.
  destruct (station_six_hundred_months no_stat no_stat
      [reading 1969 10 1 (of_Z 12); reading 1980 5 4 (of_Z (-3));
       reading 2019 9 30 (of_Z 8); reading 2020 1 1 (of_Z 2)])
    as (st & Hst & _ & Hlen & _).
  - vm_compute. repeat split.
  - eexists. split; [left; reflexivity | reflexivity].
  - eexists. split; [right; right; left; reflexivity | reflexivity].
  - exists st. split; assumption.
Defined.

End Tables.
